(** * ahkab/devices.py: circuit elements and time functions

    A shallow embedding of the element classes and of the time functions of
    [ahkab/devices.py], and the properties the specification states about
    them.

    Conventions of the embedding.
    - A Python [float] has two models. Where a property does not depend
      on rounding, the arithmetic is that of the exact rationals ([Q]).
      Where it does (the resistor's inverse pair, the wrapped time of the
      pulse, the exponential), the classes are modelled in the module
      [F64] on binary64 floats, with [ZeroDivisionError], [OverflowError]
      and [ValueError] as Python raises them.
    - A Python call that may raise returns a [result]; a method that
      assigns attributes of [self] before it raises returns the object as
      the assignments left it, next to the [result].
    - An instance whose attributes are all assigned by its constructor is a
      record; an instance for which the presence of an attribute matters is
      its [__dict__], a finite map from attribute names to values.
    - Functions of the Python library that the module calls ([math.exp],
      [numpy.abs], [numpy.angle], [str] and [%g] of a float) are the
      members of the classes [PyLib], [PyTrig] and [F64.PyMath]; the
      properties hold for every instance of them.
    - Strings are strings of bytes, and [upper] acts on ASCII letters. *)

From Stdlib Require Import ZArith QArith Qabs Lia String Ascii List.
From Stdlib Require Import PrimFloat SpecFloat FloatOps.
From stdpp Require Import base option gmap strings pretty.

Import ListNotations.

(** ** Exceptions and results *)

Inductive exn : Type :=
| ZeroDivisionError
| OverflowError
| ValueError
| TypeError
| KeyError
| AttributeError (name : string)
| Exception (msg : string).

Inductive result (A : Type) : Type :=
| Ok (a : A)
| Raise (e : exn).

Arguments Ok {A} a.
Arguments Raise {A} e.

Definition bind {A B : Type} (m : result A) (k : A -> result B) : result B :=
  match m with
  | Ok a => k a
  | Raise e => Raise e
  end.

Notation "'let*' x ':=' m 'in' k" := (bind m (fun x => k))
  (at level 10, x name, m at level 100, k at level 200).

(** ** Numbers *)

(** [a < b] on floats, as a boolean. *)
Definition Qltb (a b : Q) : bool :=
  (Qnum a * QDen b <? Qnum b * QDen a)%Z.

(** [a / b]: Python raises [ZeroDivisionError] on a zero divisor. *)
Definition pydiv (a b : Q) : result Q :=
  if Qeq_bool b 0 then Raise ZeroDivisionError else Ok (a / b)%Q.

(** [int(x)]: truncation towards zero. *)
Definition pyint (x : Q) : Z := Z.quot (Qnum x) (QDen x).

(** [max(a, b)] of Python: the first argument unless the second is larger. *)
Definition pymax (a b : Q) : Q := if Qltb a b then b else a.

(** Internal node handles, and [nodes_dict[n]] in the circuit's dictionary
    from internal nodes to their external names. *)
Abbreviation node := Z.

Definition getitem (nodes_dict : gmap Z string) (n : node) : result string :=
  match nodes_dict !! n with
  | Some name => Ok name
  | None => Raise KeyError
  end.

(** A voltage vector, one entry per port. *)
Definition voltages : Type := list Q.

(** ** Resistor *)

Module Resistor.

Record t : Type := mk {
  part_id : string;
  _value : Q;
  _g : Q;
  is_nonlinear : bool;
  is_symbolic : bool;
  n1 : node;
  n2 : node
}.

(** [Resistor.__init__]: [1./value] raises before the remaining
    attributes are assigned, and no instance results. *)
Definition __init__ (part_id : string) (n1 n2 : node) (value : Q) : result t :=
  let* g0 := pydiv 1 value in
  Ok (mk part_id value g0 false true n1 n2).

(** The [g] property. *)
Definition g (self : t) : Q := _g self.

(** The [g] setter: [_g] is assigned first, then [1./g] is evaluated. *)
Definition set_g (self : t) (g : Q) : t * result unit :=
  let self1 :=
    mk (part_id self) (_value self) g (is_nonlinear self) (is_symbolic self)
       (n1 self) (n2 self) in
  match pydiv 1 g with
  | Ok v =>
      (mk (part_id self1) v (_g self1) (is_nonlinear self1)
          (is_symbolic self1) (n1 self1) (n2 self1), Ok tt)
  | Raise e => (self1, Raise e)
  end.

(** The [value] property. *)
Definition value (self : t) : Q := _value self.

(** The [value] setter: [_value] is assigned first, then [1./value]. *)
Definition set_value (self : t) (value : Q) : t * result unit :=
  let self1 :=
    mk (part_id self) value (_g self) (is_nonlinear self) (is_symbolic self)
       (n1 self) (n2 self) in
  match pydiv 1 value with
  | Ok c =>
      (mk (part_id self1) (_value self1) c (is_nonlinear self1)
          (is_symbolic self1) (n1 self1) (n2 self1), Ok tt)
  | Raise e => (self1, Raise e)
  end.

(** [Resistor.i(v, time=0)]. *)
Definition i (self : t) (v : voltages) (time : Q) : Q := 0.

End Resistor.

(** ** Capacitor *)

Module Capacitor.

Record t : Type := mk {
  part_id : string;
  value : Q;
  n1 : node;
  n2 : node;
  ic : option Q;
  is_nonlinear : bool;
  is_symbolic : bool
}.

Definition __init__ (part_id : string) (n1 n2 : node) (value : Q)
    (ic : option Q) : t :=
  mk part_id value n1 n2 ic false true.

Definition g (self : t) (v : voltages) (time : Q) : Q := 0.

Definition i (self : t) (v : voltages) (time : Q) : Q := 0.

Definition d (self : t) (v : voltages) (time : Q) : Q := value self.

End Capacitor.

(** ** Functions of the Python library *)

(** [str] and [%g] of a float, [math.exp], and [numpy.abs] and
    [numpy.angle] of a complex number given by its real and imaginary
    parts. *)
Class PyLib : Type := {
  str_float : Q -> string;
  fmt_g : Q -> string;
  math_exp : Q -> Q;
  np_abs : Q * Q -> Q;
  np_angle : Q * Q -> Q
}.

(** [str(x)] of a float or [None]. *)
Definition str_opt `{PyLib} (x : option Q) : string :=
  match x with
  | Some q => str_float q
  | None => "None"
  end.

(** [s.upper()], on ASCII letters. *)
Definition upper_ascii (c : ascii) : ascii :=
  let n := nat_of_ascii c in
  if (97 <=? n)%nat && (n <=? 122)%nat then ascii_of_nat (n - 32) else c.

Fixpoint upper (s : string) : string :=
  match s with
  | EmptyString => EmptyString
  | String c s' => String (upper_ascii c) (upper s')
  end.

(** ** Time functions *)

(** A time function is any object with a [value(self, time)] method; the
    sources also call [str] on it. The time received is whatever the
    caller of the source passed, [None] included. *)
Class TimeFunction (W : Type) : Type := {
  tf_value : W -> option Q -> result Q;
  tf_str : W -> result string
}.

Module pulse.

Record t : Type := mk {
  v1 : Q;
  v2 : Q;
  td : Q;
  per : Q;
  tr : Q;
  tf : Q;
  pw : Q;
  _type : string
}.

Definition __init__ (v1 v2 td tr pw tf per : Q) : t :=
  mk v1 v2 (pymax td 0) per tr tf pw "V".

Definition value (self : t) (time : Q) : result Q :=
  let* q := pydiv time (per self) in
  let time := (time - per self * inject_Z (pyint q))%Q in
  if Qltb time (td self) then
    Ok (v1 self)
  else if Qltb time (td self + tr self) then
    let* k := pydiv (v2 self - v1 self) (tr self) in
    Ok (v1 self + k * (time - td self))%Q
  else if Qltb time (td self + tr self + pw self) then
    Ok (v2 self)
  else if Qltb time (td self + tr self + pw self + tf self) then
    let* k := pydiv (v1 self - v2 self) (tf self) in
    Ok (v2 self + k * (time - (td self + tr self + pw self)))%Q
  else
    Ok (v1 self).

Definition __str__ `{PyLib} (self : t) : string :=
  "type=pulse " +:+
  "v" +:+ "1=" +:+ str_float (v1 self) +:+ " " +:+
  "v" +:+ "2=" +:+ str_float (v2 self) +:+
  " td=" +:+ str_float (td self) +:+ " per=" +:+ str_float (per self) +:+
  " tr=" +:+ str_float (tr self) +:+ " tf=" +:+ str_float (tf self) +:+
  " pw=" +:+ str_float (pw self).

(** [time / self.per] on [None] is a [TypeError]. *)
#[global] Instance time_function `{PyLib} : TimeFunction t := {
  tf_value self time :=
    match time with
    | Some x => value self x
    | None => Raise TypeError
    end;
  tf_str self := Ok (__str__ self)
}.

End pulse.

Module exp.

Record t : Type := mk {
  v1 : Q;
  v2 : Q;
  td1 : Q;
  tau1 : Q;
  td2 : Q;
  tau2 : Q;
  _type : string
}.

Definition __init__ (v1 v2 td1 tau1 td2 tau2 : Q) : t :=
  mk v1 v2 td1 tau1 td2 tau2 "V".

Definition value `{PyLib} (self : t) (time : Q) : result Q :=
  if Qltb time (td1 self) then
    Ok (v1 self)
  else if Qltb time (td2 self) then
    let* a := pydiv (-1 * (time - td1 self)) (tau1 self) in
    Ok (v1 self + (v2 self - v1 self) * (1 - math_exp a))%Q
  else
    let* a := pydiv (-1 * (time - td1 self)) (tau1 self) in
    let* b := pydiv (-1 * (time - td2 self)) (tau2 self) in
    Ok (v1 self + (v2 self - v1 self) * (1 - math_exp a)
        + (v1 self - v2 self) * (1 - math_exp b))%Q.

Definition __str__ `{PyLib} (self : t) : string :=
  "type=exp " +:+
  "v" +:+ "1=" +:+ str_float (v1 self) +:+ " " +:+
  "v" +:+ "2=" +:+ str_float (v2 self) +:+
  " td1=" +:+ str_float (td1 self) +:+ " td2=" +:+ str_float (td2 self) +:+
  " tau1=" +:+ str_float (tau1 self) +:+ " tau2=" +:+ str_float (tau2 self).

(** [time < self.td1] on [None] is a [TypeError]. *)
#[global] Instance time_function `{PyLib} : TimeFunction t := {
  tf_value self time :=
    match time with
    | Some x => value self x
    | None => Raise TypeError
    end;
  tf_str self := Ok (__str__ self)
}.

End exp.

(** ** Independent sources *)

(** Truth value of a complex number: false exactly at zero. *)
Definition truthy (z : Q * Q) : bool :=
  negb (Qeq_bool (fst z) 0 && Qeq_bool (snd z) 0).

(** [str(self._time_function)]. *)
Definition str_time_function {W : Type} `{TimeFunction W}
    (f : option W) : result string :=
  match f with
  | Some w => tf_str w
  | None => Ok "None"
  end.

Module ISource.

Section with_time_function.
Context `{PyLib} {W : Type} `{TimeFunction W}.

Record t : Type := mk {
  part_id : string;
  dc_value : option Q;
  abs_ac : option Q;
  arg_ac : option Q;
  n1 : node;
  n2 : node;
  is_nonlinear : bool;
  is_symbolic : bool;
  is_timedependent : bool;
  _time_function : option W
}.

(** [dc_value=None, ac_value=0]: an omitted [ac_value] is [None] here and
    takes the default. *)
Definition __init__ (part_id : string) (n1 n2 : node)
    (dc_value : option Q) (ac_value : option (Q * Q)) : t :=
  let ac_value := default (0, 0)%Q ac_value in
  mk part_id dc_value
     (if truthy ac_value then Some (np_abs ac_value) else None)
     (if truthy ac_value then Some (np_angle ac_value) else None)
     n1 n2 false true false None.

Definition __str__ (self : t) : result string :=
  let rep := "" in
  let rep :=
    if dc_value self is Some d
    then rep +:+ "type=idc value=" +:+ str_float d +:+ " " else rep in
  let rep :=
    if abs_ac self is Some a
    then rep +:+ "iac=" +:+ str_float a +:+ " " +:+ "arg=" +:+
         str_opt (arg_ac self) +:+ " "
    else rep in
  if is_timedependent self then
    let* f := str_time_function (_time_function self) in
    Ok (rep +:+ f)
  else Ok rep.

Definition I (self : t) (time : option Q) : result (option Q) :=
  if negb (is_timedependent self)
     || bool_decide (_time_function self = None :> option W)
     || (bool_decide (time = None) && bool_decide (dc_value self ≠ None))
  then Ok (dc_value self)
  else
    match _time_function self with
    | Some w => let* x := tf_value w time in Ok (Some x)
    | None => Raise (AttributeError "value")
    end.

Definition get_netlist_elem_line (self : t)
    (nodes_dict : gmap Z string) : result string :=
  let rep := "" in
  let* e1 := getitem nodes_dict (n1 self) in
  let* e2 := getitem nodes_dict (n2 self) in
  let rep := rep +:+ (part_id self +:+ " " +:+ e1 +:+ " " +:+ e2 +:+ " ") in
  let rep :=
    if dc_value self is Some d
    then rep +:+ "type=idc value=" +:+ str_float d +:+ " " else rep in
  let rep :=
    if abs_ac self is Some a
    then rep +:+ "iac=" +:+ str_float a +:+ " " +:+ "arg=" +:+
         str_opt (arg_ac self) +:+ " "
    else rep in
  if is_timedependent self then
    let* f := str_time_function (_time_function self) in
    Ok (rep +:+ f)
  else Ok rep.

End with_time_function.

Arguments t W : clear implicits.

End ISource.

Module VSource.

Section with_time_function.
Context `{PyLib} {W : Type} `{TimeFunction W}.

(** [dc_guess] is assigned only when [dc_value] is not [None]; [None]
    stands for the attribute being absent. *)
Record t : Type := mk {
  part_id : string;
  dc_value : option Q;
  n1 : node;
  n2 : node;
  abs_ac : option Q;
  arg_ac : option Q;
  is_nonlinear : bool;
  is_symbolic : bool;
  is_timedependent : bool;
  _time_function : option W;
  dc_guess : option (list Q)
}.

Definition __init__ (part_id : string) (n1 n2 : node)
    (dc_value : option Q) (ac_value : option (Q * Q)) : t :=
  let ac_value := default (0, 0)%Q ac_value in
  mk part_id dc_value n1 n2
     (if truthy ac_value then Some (np_abs ac_value) else None)
     (if truthy ac_value then Some (np_angle ac_value) else None)
     false true false None
     (if dc_value is Some d then Some [d] else None).

Definition __str__ (self : t) : result string :=
  let rep := "" in
  let rep :=
    if dc_value self is Some d
    then rep +:+ "type=vdc value=" +:+ str_float d +:+ " " else rep in
  let rep :=
    if abs_ac self is Some a
    then rep +:+ "vac=" +:+ str_float a +:+ " " else rep in
  if is_timedependent self then
    let* f := str_time_function (_time_function self) in
    Ok (rep +:+ f)
  else Ok rep.

Definition V (self : t) (time : option Q) : result (option Q) :=
  if negb (is_timedependent self)
     || bool_decide (_time_function self = None :> option W)
     || (bool_decide (time = None) && bool_decide (dc_value self ≠ None))
  then Ok (dc_value self)
  else
    match _time_function self with
    | Some w => let* x := tf_value w time in Ok (Some x)
    | None => Raise (AttributeError "value")
    end.

Definition get_netlist_elem_line (self : t)
    (nodes_dict : gmap Z string) : result string :=
  let rep := "" in
  let* e1 := getitem nodes_dict (n1 self) in
  let* e2 := getitem nodes_dict (n2 self) in
  let rep := rep +:+ (part_id self +:+ " " +:+ e1 +:+ " " +:+ e2 +:+ " ") in
  let rep :=
    if dc_value self is Some d
    then rep +:+ "type=vdc value=" +:+ str_float d +:+ " " else rep in
  let rep :=
    if abs_ac self is Some a
    then rep +:+ "vac=" +:+ str_float a +:+ " " else rep in
  if is_timedependent self then
    let* f := str_time_function (_time_function self) in
    Ok (rep +:+ f)
  else Ok rep.

End with_time_function.

Arguments t W : clear implicits.

End VSource.

(** ** Instances as attribute dictionaries *)

(** The values the attributes below hold. *)
Inductive pyobj : Type :=
| PNone
| PBool (b : bool)
| PInt (n : Z)
| PFloat (x : Q)
| PStr (s : string).

(** An instance is its [__dict__]. None of the classes modelled this way
    has a class attribute other than its methods. *)
Abbreviation instance := (gmap string pyobj).

Definition getattr (self : instance) (name : string) : result pyobj :=
  match self !! name with
  | Some v => Ok v
  | None => Raise (AttributeError name)
  end.

Definition setattr (self : instance) (name : string) (v : pyobj) : instance :=
  <[name := v]> self.

(** [%s] of a value. *)
Definition fmt_s `{PyLib} (v : pyobj) : string :=
  match v with
  | PNone => "None"
  | PBool true => "True"
  | PBool false => "False"
  | PInt n => pretty n
  | PFloat x => str_float x
  | PStr s => s
  end.

(** [%g] of a value: a [TypeError] unless the value is a number. *)
Definition fmt_g_obj `{PyLib} (v : pyobj) : result string :=
  match v with
  | PBool b => Ok (fmt_g (if b then 1 else 0))
  | PInt n => Ok (fmt_g (inject_Z n))
  | PFloat x => Ok (fmt_g x)
  | PNone | PStr _ => Raise TypeError
  end.

(** [nodes_dict[n]] for an attribute value [n]. *)
Definition getitem_obj (nodes_dict : gmap Z string) (n : pyobj) : result string :=
  match n with
  | PInt k => getitem nodes_dict k
  | _ => Raise KeyError
  end.

(** [x.upper()] for an attribute value [x]. *)
Definition upper_obj (x : pyobj) : result string :=
  match x with
  | PStr s => Ok (upper s)
  | _ => Raise (AttributeError "upper")
  end.

(** [1./x] for an attribute value [x]. *)
Definition inverse_obj (x : pyobj) : result Q :=
  match x with
  | PBool b => pydiv 1 (if b then 1 else 0)
  | PInt n => pydiv 1 (inject_Z n)
  | PFloat y => pydiv 1 y
  | PNone | PStr _ => Raise TypeError
  end.

(** ** Component: the methods the subclasses inherit *)

Module Component.

Definition __init__ (part_id n1 n2 : pyobj) (is_nonlinear is_symbolic : bool)
    (value : pyobj) : instance :=
  let self := setattr ∅ "part_id" part_id in
  let self := setattr self "n1" n1 in
  let self := setattr self "n2" n2 in
  let self := setattr self "value" value in
  let self := setattr self "is_nonlinear" (PBool is_nonlinear) in
  setattr self "is_symbolic" (PBool is_symbolic).

Definition __str__ `{PyLib} (self : instance) : result string :=
  let* v := getattr self "value" in
  Ok (fmt_s v).

Definition g (self : instance) (v : voltages) : result Q :=
  let* x := getattr self "value" in
  inverse_obj x.

Definition i (self : instance) (v : voltages) : result Q := Ok 0%Q.

Definition get_netlist_elem_line `{PyLib} (self : instance)
    (nodes_dict : gmap Z string) : result string :=
  let* p := getattr self "part_id" in
  let* a := getattr self "n1" in
  let* e1 := getitem_obj nodes_dict a in
  let* b := getattr self "n2" in
  let* e2 := getitem_obj nodes_dict b in
  let* x := getattr self "value" in
  let* gx := fmt_g_obj x in
  Ok (fmt_s p +:+ " " +:+ e1 +:+ " " +:+ e2 +:+ " " +:+ gx).

End Component.

(** ** InductorCoupling *)

Module InductorCoupling.

(** The constructor assigns these seven attributes and does not call
    [Component.__init__]. *)
Definition __init__ (part_id L1 L2 : string) (K M : Q) : instance :=
  let self := setattr ∅ "part_id" (PStr part_id) in
  let self := setattr self "L1" (PStr L1) in
  let self := setattr self "L2" (PStr L2) in
  let self := setattr self "M" (PFloat M) in
  let self := setattr self "K" (PFloat K) in
  let self := setattr self "is_nonlinear" (PBool false) in
  setattr self "is_symbolic" (PBool true).

Definition __str__ `{PyLib} (self : instance) : result string :=
  let* l1 := getattr self "L1" in
  let* l2 := getattr self "L2" in
  let* x := getattr self "value" in
  let* gx := fmt_g_obj x in
  Ok (fmt_s l1 +:+ " " +:+ fmt_s l2 +:+ " " +:+ gx).

Definition get_other_inductor (self : instance) (Lselected : string)
    : result pyobj :=
  let Lret := PNone in
  let* l1 := getattr self "L1" in
  let* u1 := upper_obj l1 in
  let* Lret :=
    if String.eqb (upper Lselected) u1 then getattr self "L2"
    else
      let* l2 := getattr self "L2" in
      let* u2 := upper_obj l2 in
      if String.eqb (upper Lselected) u2 then getattr self "L1"
      else Ok Lret in
  if Lret is PNone then Raise (Exception "Mutual inductors bug.")
  else Ok Lret.

Definition get_netlist_elem_line `{PyLib} (self : instance)
    (nodes_dict : gmap Z string) : result string :=
  let* p := getattr self "part_id" in
  let* l1 := getattr self "L1" in
  let* l2 := getattr self "L2" in
  let* k := getattr self "K" in
  let* gk := fmt_g_obj k in
  Ok (fmt_s p +:+ " " +:+ fmt_s l1 +:+ " " +:+ fmt_s l2 +:+ " " +:+ gk).

End InductorCoupling.

(** ** HVSource *)

Module HVSource.

(** The constructor prints a line and then assigns its attributes; the
    result is the printed output and the instance. It does not call
    [Component.__init__]. *)
Definition __init__ (part_id : string) (n1 n2 : node) (value : Q)
    (source_id : string) : list string * result instance :=
  let stdout := ["HVSource not implemented. TODO"] in
  let self := setattr ∅ "part_id" (PStr part_id) in
  let self := setattr self "n1" (PInt n1) in
  let self := setattr self "n2" (PInt n2) in
  let self := setattr self "alpha" (PFloat value) in
  let self := setattr self "source_id" (PStr source_id) in
  let self := setattr self "is_nonlinear" (PBool false) in
  let self := setattr self "is_symbolic" (PBool true) in
  (stdout, Ok self).

Definition __str__ (self : instance) : result string :=
  Raise (Exception "HVSource not implemented. TODO").

(** Inherited from [Component]. *)
Definition g := Component.g.
Definition i := Component.i.
Definition get_netlist_elem_line `{PyLib} := Component.get_netlist_elem_line.

End HVSource.

(** ** The clauses of a source line as the specification words them *)

Module SourceSpec.

(** [name n1 n2 ], with the external names of the nodes. *)
Definition header (part_id e1 e2 : string) : string :=
  part_id +:+ " " +:+ e1 +:+ " " +:+ e2 +:+ " ".

(** [type=idc value=V] or [type=vdc value=V], present when a DC value is
    set. *)
Definition dc_clause `{PyLib} (kind : string) (dc : option Q) : string :=
  match dc with
  | Some d => "type=" +:+ kind +:+ " value=" +:+ str_float d +:+ " "
  | None => ""
  end.

(** [iac=mag arg=phase] of a current source. *)
Definition iac_clause `{PyLib} (mag phase : Q) : string :=
  "iac=" +:+ str_float mag +:+ " " +:+ "arg=" +:+ str_float phase +:+ " ".

(** [vac=mag] of a voltage source. *)
Definition vac_clause `{PyLib} (mag : Q) : string :=
  "vac=" +:+ str_float mag +:+ " ".

End SourceSpec.

(** ** Examples to run the definitions on *)

Module Sample.

(** [pulse(v1=0, v2=5, td=0, tr=1, tf=1, pw=2, per=10)]. *)
Definition p : pulse.t := pulse.__init__ 0 5 0 1 2 1 10.

(** A rational stand-in for the library: [math_exp] is the Taylor
    polynomial of degree three, [np_abs] and [np_angle] are exact on
    the non-negative real axis. *)
#[export] Instance lib : PyLib := {
  str_float x := pretty (Qnum x) +:+ "/" +:+ pretty (Zpos (Qden x));
  fmt_g x := pretty (Qnum x) +:+ "/" +:+ pretty (Zpos (Qden x));
  math_exp x := (1 + x + x * x / 2 + x * x * x / 6)%Q;
  np_abs z := (Qabs (fst z) + Qabs (snd z))%Q;
  np_angle z := 0%Q
}.

(** [InductorCoupling("K1", L1="La", L2="Lb", K=0.5, M=3)]. *)
Definition coupling : instance :=
  InductorCoupling.__init__ "K1" "La" "Lb" (1 # 2) (3 # 1).

(** A resistor of 4 ohm. *)
Definition r : Resistor.t := Resistor.mk "R1" (4 # 1) (1 # 4) false true 1 0.

(** [VSource("V1", 1, 0, dc_value=5)], and the same source made time
    dependent with the pulse [p]. *)
Definition vdc : VSource.t pulse.t :=
  VSource.__init__ "V1" 1 0 (Some (5 # 1)) None.

Definition vpulse : VSource.t pulse.t :=
  VSource.mk "V1" (Some (5 # 1)) 1 0 None None false true true (Some p)
    (Some [5 # 1]).

(** [ISource("I1", 1, 0)] made time dependent with the pulse [p]: no DC
    value is set. *)
Definition ipulse : ISource.t pulse.t :=
  ISource.mk "I1" None None None 1 0 false true true (Some p).

(** An exponential [exp(v1=0, v2=1, td1=0, tau1=1, td2=100, tau2=1)]. *)
Definition e : exp.t := exp.__init__ 0 1 0 1 (100 # 1) 1.

Definition nodes : gmap Z string := <[1%Z := "a"]> (<[0%Z := "0"]> ∅).

End Sample.


(** ** Sine *)

(** [math.sin] and [math.pi]. *)
Class PyTrig : Type := {
  math_sin : Q -> Q;
  math_pi : Q
}.

Module sin.

Record t : Type := mk {
  vo : Q;
  va : Q;
  freq : Q;
  td : Q;
  theta : Q;
  phi : Q;
  _type : string
}.

(** [td=0., theta=0., phi=0.]: an omitted argument is [None] here. *)
Definition __init__ (vo va freq : Q) (td theta phi : option Q) : t :=
  mk vo va freq (default 0%Q td) (default 0%Q theta) (default 0%Q phi) "V".

Definition value `{PyLib} `{PyTrig} (self : t) (time : Q) : result Q :=
  if Qltb time (td self) then
    Ok (vo self + va self * math_sin (math_pi * phi self / 180))%Q
  else
    Ok (vo self
        + va self * math_exp ((td self - time) * theta self)
          * math_sin (2 * math_pi * freq self * (time - td self)
                      + math_pi * phi self / 180))%Q.

Definition __str__ `{PyLib} (self : t) : string :=
  "type=sin " +:+
  "v" +:+ "o=" +:+ str_float (vo self) +:+ " " +:+
  "v" +:+ "a=" +:+ str_float (va self) +:+
  " freq=" +:+ str_float (freq self) +:+ " theta=" +:+ str_float (theta self) +:+
  " td=" +:+ str_float (td self).

(** [time < self.td] on [None] is a [TypeError]. *)
#[global] Instance time_function `{PyLib} `{PyTrig} : TimeFunction t := {
  tf_value self time :=
    match time with
    | Some x => value self x
    | None => Raise TypeError
    end;
  tf_str self := Ok (__str__ self)
}.

End sin.

(** ** Linear controlled sources *)

(** Attribute lookup on an instance of a class with class attributes: the
    instance dictionary first, then the class. *)
Definition getattr_class (cls self : instance) (name : string) : result pyobj :=
  match self !! name with
  | Some v => Ok v
  | None =>
      match cls !! name with
      | Some v => Ok v
      | None => Raise (AttributeError name)
      end
  end.

Module EVSource.

(** [is_nonlinear] and [is_symbolic] are class attributes. *)
Definition class_attributes : instance :=
  setattr (setattr ∅ "is_nonlinear" (PBool false)) "is_symbolic" (PBool true).

Definition __init__ (part_id : string) (n1 n2 : node) (value : Q)
    (sn1 sn2 : node) : instance :=
  let self := setattr ∅ "part_id" (PStr part_id) in
  let self := setattr self "n1" (PInt n1) in
  let self := setattr self "n2" (PInt n2) in
  let self := setattr self "alpha" (PFloat value) in
  let self := setattr self "sn1" (PInt sn1) in
  setattr self "sn2" (PInt sn2).

Definition __str__ `{PyLib} (self : instance) : result string :=
  let* a := getattr self "alpha" in
  Ok ("alpha=" +:+ fmt_s a).

Definition get_netlist_elem_line `{PyLib} (self : instance)
    (nodes_dict : gmap Z string) : result string :=
  let* p := getattr self "part_id" in
  let* a := getattr self "n1" in
  let* e1 := getitem_obj nodes_dict a in
  let* b := getattr self "n2" in
  let* e2 := getitem_obj nodes_dict b in
  let* c := getattr self "sn1" in
  let* e3 := getitem_obj nodes_dict c in
  let* d := getattr self "sn2" in
  let* e4 := getitem_obj nodes_dict d in
  let* x := getattr self "alpha" in
  let* gx := fmt_g_obj x in
  Ok (fmt_s p +:+ " " +:+ e1 +:+ " " +:+ e2 +:+ " " +:+ e3 +:+ " " +:+ e4
      +:+ " " +:+ gx).

(** Inherited from [Component]. *)
Definition g := Component.g.
Definition i := Component.i.

End EVSource.

Module GISource.

Definition class_attributes : instance :=
  setattr (setattr ∅ "is_nonlinear" (PBool false)) "is_symbolic" (PBool true).

Definition __init__ (part_id : string) (n1 n2 : node) (value : Q)
    (sn1 sn2 : node) : instance :=
  let self := setattr ∅ "part_id" (PStr part_id) in
  let self := setattr self "n1" (PInt n1) in
  let self := setattr self "n2" (PInt n2) in
  let self := setattr self "alpha" (PFloat value) in
  let self := setattr self "sn1" (PInt sn1) in
  setattr self "sn2" (PInt sn2).

Definition __str__ `{PyLib} (self : instance) : result string :=
  let* a := getattr self "alpha" in
  Ok ("value=" +:+ fmt_s a).

Definition get_netlist_elem_line `{PyLib} (self : instance)
    (nodes_dict : gmap Z string) : result string :=
  let* p := getattr self "part_id" in
  let* a := getattr self "n1" in
  let* e1 := getitem_obj nodes_dict a in
  let* b := getattr self "n2" in
  let* e2 := getitem_obj nodes_dict b in
  let* c := getattr self "sn1" in
  let* e3 := getitem_obj nodes_dict c in
  let* d := getattr self "sn2" in
  let* e4 := getitem_obj nodes_dict d in
  let* x := getattr self "alpha" in
  let* gx := fmt_g_obj x in
  Ok (fmt_s p +:+ " " +:+ e1 +:+ " " +:+ e2 +:+ " " +:+ e3 +:+ " " +:+ e4
      +:+ " " +:+ gx).

(** Inherited from [Component]. *)
Definition g := Component.g.
Definition i := Component.i.

End GISource.

Module FISource.

Definition __init__ (part_id : string) (n1 n2 : node) (value : Q)
    (source_id : string) : instance :=
  let self := setattr ∅ "part_id" (PStr part_id) in
  let self := setattr self "n1" (PInt n1) in
  let self := setattr self "n2" (PInt n2) in
  let self := setattr self "source_id" (PStr source_id) in
  let self := setattr self "alpha" (PFloat value) in
  let self := setattr self "is_nonlinear" (PBool false) in
  setattr self "is_symbolic" (PBool true).

Definition get_netlist_elem_line `{PyLib} (self : instance)
    (nodes_dict : gmap Z string) : result string :=
  let* p := getattr self "part_id" in
  let* a := getattr self "n1" in
  let* e1 := getitem_obj nodes_dict a in
  let* b := getattr self "n2" in
  let* e2 := getitem_obj nodes_dict b in
  let* s := getattr self "source_id" in
  let* x := getattr self "alpha" in
  let* gx := fmt_g_obj x in
  Ok (fmt_s p +:+ " " +:+ e1 +:+ " " +:+ e2 +:+ " " +:+ fmt_s s +:+ " " +:+ gx).

(** Inherited from [Component]. *)
Definition __str__ `{PyLib} := Component.__str__.
Definition g := Component.g.
Definition i := Component.i.

End FISource.

(** ** Further examples *)

Module Example.

(** [math_sin] is the Taylor polynomial of degree three. *)
#[export] Instance trig : PyTrig := {
  math_sin x := (x - x * x * x / 6)%Q;
  math_pi := (355 # 113)%Q
}.

(** [sin(vo=1, va=2, freq=50, td=0.5, theta=3, phi=90)]. *)
Definition s : sin.t :=
  sin.__init__ 1 (2 # 1) (50 # 1) (Some (1 # 2)) (Some (3 # 1)) (Some (90 # 1)).

(** [EVSource("E1", 1, 0, 2.5, 2, 3)]. *)
Definition evs : instance := EVSource.__init__ "E1" 1 0 (5 # 2) 2 3.

Definition nodes4 : gmap Z string :=
  <[3%Z := "c"]> (<[2%Z := "b"]> (<[1%Z := "a"]> (<[0%Z := "0"]> ∅))).

End Example.


(** ** Binary64 arithmetic *)

(** The classes whose properties depend on rounding, overflow or
    infinities are modelled a second time on the binary64 floats Python
    computes with. Float literals are read as Python reads them, to the
    nearest binary64 number. *)
Set Warnings "-inexact-float".

Module F64.

(** [a / b]: Python raises [ZeroDivisionError] when [b == 0.0]. *)
Definition pydiv (a b : float) : result float :=
  if (b =? 0)%float then Raise ZeroDivisionError else Ok (a / b)%float.

(** [int(x)]: truncation towards zero; [OverflowError] on an infinity and
    [ValueError] on a NaN. *)
Definition float_int (x : float) : result Z :=
  match Prim2SF x with
  | S754_zero _ => Ok 0%Z
  | S754_infinity _ => Raise OverflowError
  | S754_nan => Raise ValueError
  | S754_finite s m e =>
      let mag :=
        if (0 <=? e)%Z then (Z.pos m * 2 ^ e)%Z else (Z.pos m / 2 ^ (- e))%Z in
      Ok (if s then (- mag)%Z else mag)
  end.

(** The conversion of an [int] operand of a float operation: the nearest
    float, ties to even; [OverflowError] when it is out of range. *)
Definition of_int (n : Z) : result float :=
  let x := SF2Prim (binary_normalize prec emax n 0 false) in
  if is_infinity x then Raise OverflowError else Ok x.

(** [max(a, b)]: the first argument unless the second is larger. *)
Definition pymax (a b : float) : float := if (a <? b)%float then b else a.

(** [math.exp]: it raises [OverflowError] where the result is out of
    range. *)
Class PyMath : Type := {
  math_exp : float -> result float
}.

Module Resistor.

Record t : Type := mk {
  part_id : string;
  _value : float;
  _g : float;
  is_nonlinear : bool;
  is_symbolic : bool;
  n1 : node;
  n2 : node
}.

(** [Resistor.__init__]: [1./value] raises before the remaining
    attributes are assigned, and no instance results. *)
Definition __init__ (part_id : string) (n1 n2 : node) (value : float)
    : result t :=
  let* g0 := pydiv 1 value in
  Ok (mk part_id value g0 false true n1 n2).

(** The [g] property. *)
Definition g (self : t) : float := _g self.

(** The [g] setter: [_g] is assigned first, then [1./g] is evaluated. *)
Definition set_g (self : t) (g : float) : t * result unit :=
  let self1 :=
    mk (part_id self) (_value self) g (is_nonlinear self) (is_symbolic self)
       (n1 self) (n2 self) in
  match pydiv 1 g with
  | Ok v =>
      (mk (part_id self1) v (_g self1) (is_nonlinear self1)
          (is_symbolic self1) (n1 self1) (n2 self1), Ok tt)
  | Raise e => (self1, Raise e)
  end.

(** The [value] property. *)
Definition value (self : t) : float := _value self.

(** The [value] setter: [_value] is assigned first, then [1./value]. *)
Definition set_value (self : t) (value : float) : t * result unit :=
  let self1 :=
    mk (part_id self) value (_g self) (is_nonlinear self) (is_symbolic self)
       (n1 self) (n2 self) in
  match pydiv 1 value with
  | Ok c =>
      (mk (part_id self1) (_value self1) c (is_nonlinear self1)
          (is_symbolic self1) (n1 self1) (n2 self1), Ok tt)
  | Raise e => (self1, Raise e)
  end.

(** [Resistor.i(v, time=0)]: the integer zero. *)
Definition i (self : t) (v : list float) (time : float) : Z := 0%Z.

End Resistor.

Module pulse.

Record t : Type := mk {
  v1 : float;
  v2 : float;
  td : float;
  per : float;
  tr : float;
  tf : float;
  pw : float;
  _type : string
}.

Definition __init__ (v1 v2 td tr pw tf per : float) : t :=
  mk v1 v2 (pymax td 0) per tr tf pw "V".

Definition value (self : t) (time : float) : result float :=
  let* q := pydiv time (per self) in
  let* n := float_int q in
  let* f := of_int n in
  let time := (time - per self * f)%float in
  if (time <? td self)%float then
    Ok (v1 self)
  else if (time <? td self + tr self)%float then
    let* k := pydiv (v2 self - v1 self) (tr self) in
    Ok (v1 self + k * (time - td self))%float
  else if (time <? td self + tr self + pw self)%float then
    Ok (v2 self)
  else if (time <? td self + tr self + pw self + tf self)%float then
    let* k := pydiv (v1 self - v2 self) (tf self) in
    Ok (v2 self + k * (time - (td self + tr self + pw self)))%float
  else
    Ok (v1 self).

End pulse.

Module exp.

Record t : Type := mk {
  v1 : float;
  v2 : float;
  td1 : float;
  tau1 : float;
  td2 : float;
  tau2 : float;
  _type : string
}.

Definition __init__ (v1 v2 td1 tau1 td2 tau2 : float) : t :=
  mk v1 v2 td1 tau1 td2 tau2 "V".

Definition value `{PyMath} (self : t) (time : float) : result float :=
  if (time <? td1 self)%float then
    Ok (v1 self)
  else if (time <? td2 self)%float then
    let* a := pydiv (-1 * (time - td1 self)) (tau1 self) in
    let* ea := math_exp a in
    Ok (v1 self + (v2 self - v1 self) * (1 - ea))%float
  else
    let* a := pydiv (-1 * (time - td1 self)) (tau1 self) in
    let* ea := math_exp a in
    let* b := pydiv (-1 * (time - td2 self)) (tau2 self) in
    let* eb := math_exp b in
    Ok (v1 self + (v2 self - v1 self) * (1 - ea)
        + (v1 self - v2 self) * (1 - eb))%float.

End exp.

(** The terms of the exponential as the specification words them, with
    the divisions and [math.exp] as Python evaluates them. *)
Module ExpSpec.

(** The rise term [v1 + (v2 - v1) * (1 - exp(-(t - td1) / tau1))]. *)
Definition rise `{PyMath} (w : exp.t) (t : float) : result float :=
  let* a := pydiv (-1 * (t - exp.td1 w)) (exp.tau1 w) in
  let* ea := math_exp a in
  Ok (exp.v1 w + (exp.v2 w - exp.v1 w) * (1 - ea))%float.

(** The fall contribution [(v1 - v2) * (1 - exp(-(t - td2) / tau2))]. *)
Definition fall `{PyMath} (w : exp.t) (t : float) : result float :=
  let* b := pydiv (-1 * (t - exp.td2 w)) (exp.tau2 w) in
  let* eb := math_exp b in
  Ok ((exp.v1 w - exp.v2 w) * (1 - eb))%float.

End ExpSpec.

(** Examples. *)
Module Sample.

(** [pulse(v1=0, v2=5, td=0, tr=1, tf=1, pw=2, per=10)]. *)
Definition p : pulse.t := pulse.__init__ 0 5 0 1 2 1 10.

(** [pulse(v1=0, v2=5, td=0, tr=0.05, tf=0, pw=0.05, per=0.1)]. *)
Definition fast : pulse.t := pulse.__init__ 0 5 0 0.05 0.05 0 0.1.

(** [exp(v1=0, v2=1, td1=0, tau1=1, td2=100, tau2=1)]. *)
Definition e : exp.t := exp.__init__ 0 1 0 1 100 1.

(** A stand-in for [math.exp]: the Taylor polynomial of degree three,
    raising above the largest argument [math.exp] accepts. *)
#[export] Instance math : PyMath := {
  math_exp x :=
    if (709.782712893384 <? x)%float then Raise OverflowError
    else Ok (1 + x + x * x / 2 + x * x * x / 6)%float
}.

End Sample.

End F64.


(** * Properties *)

(** ** Numbers *)

Lemma Qltb_lt (a b : Q) : Qltb a b = true <-> (a < b)%Q.
Proof. unfold Qltb, Qlt. apply Z.ltb_lt. Qed.

Lemma Qltb_ge (a b : Q) : Qltb a b = false <-> (b <= a)%Q.
Proof. unfold Qltb, Qle. apply Z.ltb_ge. Qed.

Lemma pydiv_nonzero (a b : Q) : ~ (b == 0)%Q -> pydiv a b = Ok (a / b)%Q.
Proof.
  intros Hb. unfold pydiv.
  destruct (Qeq_bool b 0) eqn:E; [|reflexivity].
  apply Qeq_bool_iff in E. contradiction.
Qed.

(** ** Resistor *)

Lemma F64_pydiv_nonzero (a b : float) :
  (b =? 0)%float = false -> F64.pydiv a b = Ok (a / b)%float.
Proof. intros Hb. unfold F64.pydiv. now rewrite Hb. Qed.

Lemma F64_pydiv_zero (a b : float) :
  (b =? 0)%float = true -> F64.pydiv a b = Raise ZeroDivisionError.
Proof. intros Hb. unfold F64.pydiv. now rewrite Hb. Qed.




(** C4, as the code has it. From any state, a write of a non-zero [x] to
    [g] returns, the conductance then reads [x] and the value [1./x]; a
    write of a non-zero [x] to [value] returns, the value then reads [x]
    and the conductance [1./x], which is [1./value]. A write of zero to
    either field raises [ZeroDivisionError]. *)
Theorem Resistor_value_conductance_synchronized (r : F64.Resistor.t)
    (x : float) :
  ((x =? 0)%float = false ->
   (exists r', F64.Resistor.set_g r x = (r', Ok tt)
      /\ F64.Resistor.g r' = x
      /\ F64.Resistor.value r' = (1 / x)%float)
   /\ (exists r', F64.Resistor.set_value r x = (r', Ok tt)
      /\ F64.Resistor.value r' = x
      /\ F64.Resistor.g r' = (1 / x)%float
      /\ F64.Resistor.g r' = (1 / F64.Resistor.value r')%float))
  /\ ((x =? 0)%float = true ->
      snd (F64.Resistor.set_g r x) = Raise ZeroDivisionError
      /\ snd (F64.Resistor.set_value r x) = Raise ZeroDivisionError).
Proof.
  unfold F64.Resistor.set_g, F64.Resistor.set_value. split.
  - intros Hx. rewrite (F64_pydiv_nonzero _ _ Hx). split.
    + eexists. split; [reflexivity|]. split; reflexivity.
    + eexists. split; [reflexivity|]. repeat split.
  - intros Hx. rewrite (F64_pydiv_zero _ _ Hx). split; reflexivity.
Qed.

Lemma Resistor_value_conductance_synchronized_witness :
  ((exists r', F64.Resistor.set_g (F64.Resistor.mk "R1" 4 0.25 false true 1 0) 2
               = (r', Ok tt)
      /\ F64.Resistor.g r' = 2%float
      /\ F64.Resistor.value r' = (1 / 2)%float)
   /\ (exists r',
         F64.Resistor.set_value (F64.Resistor.mk "R1" 4 0.25 false true 1 0) 2
         = (r', Ok tt)
      /\ F64.Resistor.value r' = 2%float
      /\ F64.Resistor.g r' = (1 / 2)%float
      /\ F64.Resistor.g r' = (1 / F64.Resistor.value r')%float))
  /\ snd (F64.Resistor.set_g (F64.Resistor.mk "R1" 4 0.25 false true 1 0) (-0))
     = Raise ZeroDivisionError.
Proof.
  split.
  - apply (proj1 (Resistor_value_conductance_synchronized
                    (F64.Resistor.mk "R1" 4 0.25 false true 1 0) 2)).
    reflexivity.
  - apply (proj2 (Resistor_value_conductance_synchronized
                    (F64.Resistor.mk "R1" 4 0.25 false true 1 0) (-0))).
    reflexivity.
Defined.

(** C4 as stated fails in two ways on the resistor of 4 ohm. The write
    [g = 0.11] returns and leaves the conductance [0.11] and the value
    [1./0.11], but [1/value] differs from [0.11]. The write [g = 0.0]
    raises after [_g] was assigned: the conductance then reads zero and
    the value still 4. *)
Lemma Resistor_writes_that_break_the_inverse :
  (exists r', F64.Resistor.set_g (F64.Resistor.mk "R1" 4 0.25 false true 1 0) 0.11
              = (r', Ok tt)
     /\ F64.Resistor.g r' = 0.11%float
     /\ (F64.Resistor.g r' =? 1 / F64.Resistor.value r')%float = false)
  /\ (exists r', F64.Resistor.set_g (F64.Resistor.mk "R1" 4 0.25 false true 1 0) 0
                 = (r', Raise ZeroDivisionError)
        /\ F64.Resistor.g r' = 0%float
        /\ F64.Resistor.value r' = 4%float
        /\ (F64.Resistor.g r' =? 1 / F64.Resistor.value r')%float = false).
Proof.
  split.
  - eexists. split; [reflexivity|]. split; [reflexivity|].
    vm_compute. reflexivity.
  - eexists. split; [reflexivity|]. split; [reflexivity|].
    split; [reflexivity|]. vm_compute. reflexivity.
Qed.

(** ** Capacitor *)

(** C5. For every capacitor, voltage vector and time, the current [i] and
    the conductance [g] are zero and the charge derivative [d] is the
    capacitance. *)
Theorem Capacitor_stamps (c : Capacitor.t) (v : voltages) (time : Q) :
  Capacitor.i c v time = 0%Q
  /\ Capacitor.g c v time = 0%Q
  /\ Capacitor.d c v time = Capacitor.value c.
Proof. repeat split. Qed.

(** ** Independent sources: evaluation *)

Section source_value.
Context {W : Type} `{TimeFunction W}.

Lemma VSource_V_cases (s : VSource.t W) (time : option Q) :
  VSource.V s time =
  match VSource.is_timedependent s, VSource._time_function s with
  | false, _ | true, None => Ok (VSource.dc_value s)
  | true, Some w =>
      match time, VSource.dc_value s with
      | None, Some d => Ok (Some d)
      | _, _ => let* x := tf_value w time in Ok (Some x)
      end
  end.
Proof.
  unfold VSource.V.
  destruct (VSource.is_timedependent s), (VSource._time_function s) as [w|],
    time as [x|], (VSource.dc_value s) as [d|]; reflexivity.
Qed.

Lemma ISource_I_cases (s : ISource.t W) (time : option Q) :
  ISource.I s time =
  match ISource.is_timedependent s, ISource._time_function s with
  | false, _ | true, None => Ok (ISource.dc_value s)
  | true, Some w =>
      match time, ISource.dc_value s with
      | None, Some d => Ok (Some d)
      | _, _ => let* x := tf_value w time in Ok (Some x)
      end
  end.
Proof.
  unfold ISource.I.
  destruct (ISource.is_timedependent s), (ISource._time_function s) as [w|],
    time as [x|], (ISource.dc_value s) as [d|]; reflexivity.
Qed.

(** C1. Evaluation precedence of an independent source, the same for [V]
    of a voltage source and [I] of a current source: (1) a source that is
    not time dependent or has no time function returns its DC value; (2)
    otherwise, with no time given and a DC value set, it returns the DC
    value; (3) otherwise it returns what the time function's [value]
    returns at the time given. *)
Theorem source_value_precedence (v : VSource.t W) (c : ISource.t W)
    (time : option Q) :
  ((VSource.is_timedependent v = false \/ VSource._time_function v = None ->
    VSource.V v time = Ok (VSource.dc_value v))
   /\ (forall d, VSource.is_timedependent v = true ->
         VSource._time_function v <> None ->
         time = None -> VSource.dc_value v = Some d ->
         VSource.V v time = Ok (Some d))
   /\ (forall w, VSource.is_timedependent v = true ->
         VSource._time_function v = Some w ->
         time <> None \/ VSource.dc_value v = None ->
         VSource.V v time = let* x := tf_value w time in Ok (Some x)))
  /\
  ((ISource.is_timedependent c = false \/ ISource._time_function c = None ->
    ISource.I c time = Ok (ISource.dc_value c))
   /\ (forall d, ISource.is_timedependent c = true ->
         ISource._time_function c <> None ->
         time = None -> ISource.dc_value c = Some d ->
         ISource.I c time = Ok (Some d))
   /\ (forall w, ISource.is_timedependent c = true ->
         ISource._time_function c = Some w ->
         time <> None \/ ISource.dc_value c = None ->
         ISource.I c time = let* x := tf_value w time in Ok (Some x))).
Proof.
  split.
  - rewrite VSource_V_cases. repeat split.
    + intros [-> | ->]; [reflexivity|].
      now destruct (VSource.is_timedependent v).
    + intros d -> Hf -> ->.
      destruct (VSource._time_function v); [reflexivity | contradiction].
    + intros w -> -> [Ht | ->].
      * destruct time; [reflexivity | contradiction].
      * now destruct time.
  - rewrite ISource_I_cases. repeat split.
    + intros [-> | ->]; [reflexivity|].
      now destruct (ISource.is_timedependent c).
    + intros d -> Hf -> ->.
      destruct (ISource._time_function c); [reflexivity | contradiction].
    + intros w -> -> [Ht | ->].
      * destruct time; [reflexivity | contradiction].
      * now destruct time.
Qed.

End source_value.

(** ** Pulse *)

(** C2, as the code has it. When [time / per], its conversion by [int]
    (which truncates towards zero) and the product with [per] return, the
    value of a pulse is that of five ordered segments at the time
    [t = time - per * int(time / per)]: the low value while [t] is below
    the delay, the ramp from low to high over the rise time, the high
    value for the plateau width, the ramp from high to low over the fall
    time, and the low value for the remainder. The pulse
    [(v1=0, v2=5, td=0, tr=1, tf=1, pw=2, per=10)] yields [value(0)=0],
    [value(0.5)=2.5], [value(1.5)=5], [value(3)=5], [value(3.5)=2.5],
    [value(4.5)=0] and [value(11)==value(1)]. *)
Theorem pulse_value_five_segments (w : F64.pulse.t) (time q f t : float)
    (n : Z)
    (Hq : F64.pydiv time (F64.pulse.per w) = Ok q)
    (Hn : F64.float_int q = Ok n)
    (Hf : F64.of_int n = Ok f)
    (Ht : t = (time - F64.pulse.per w * f)%float) :
  ((t <? F64.pulse.td w)%float = true ->
   F64.pulse.value w time = Ok (F64.pulse.v1 w))
  /\ ((t <? F64.pulse.td w)%float = false ->
      (t <? F64.pulse.td w + F64.pulse.tr w)%float = true ->
      F64.pulse.value w time
      = let* k := F64.pydiv (F64.pulse.v2 w - F64.pulse.v1 w) (F64.pulse.tr w) in
        Ok (F64.pulse.v1 w + k * (t - F64.pulse.td w))%float)
  /\ ((t <? F64.pulse.td w)%float = false ->
      (t <? F64.pulse.td w + F64.pulse.tr w)%float = false ->
      (t <? F64.pulse.td w + F64.pulse.tr w + F64.pulse.pw w)%float = true ->
      F64.pulse.value w time = Ok (F64.pulse.v2 w))
  /\ ((t <? F64.pulse.td w)%float = false ->
      (t <? F64.pulse.td w + F64.pulse.tr w)%float = false ->
      (t <? F64.pulse.td w + F64.pulse.tr w + F64.pulse.pw w)%float = false ->
      (t <? F64.pulse.td w + F64.pulse.tr w + F64.pulse.pw w
            + F64.pulse.tf w)%float = true ->
      F64.pulse.value w time
      = let* k := F64.pydiv (F64.pulse.v1 w - F64.pulse.v2 w) (F64.pulse.tf w) in
        Ok (F64.pulse.v2 w
            + k * (t - (F64.pulse.td w + F64.pulse.tr w + F64.pulse.pw w)))%float)
  /\ ((t <? F64.pulse.td w)%float = false ->
      (t <? F64.pulse.td w + F64.pulse.tr w)%float = false ->
      (t <? F64.pulse.td w + F64.pulse.tr w + F64.pulse.pw w)%float = false ->
      (t <? F64.pulse.td w + F64.pulse.tr w + F64.pulse.pw w
            + F64.pulse.tf w)%float = false ->
      F64.pulse.value w time = Ok (F64.pulse.v1 w))
  /\ (F64.pulse.value F64.Sample.p 0 = Ok 0%float
      /\ F64.pulse.value F64.Sample.p 0.5 = Ok 2.5%float
      /\ F64.pulse.value F64.Sample.p 1.5 = Ok 5%float
      /\ F64.pulse.value F64.Sample.p 3 = Ok 5%float
      /\ F64.pulse.value F64.Sample.p 3.5 = Ok 2.5%float
      /\ F64.pulse.value F64.Sample.p 4.5 = Ok 0%float
      /\ F64.pulse.value F64.Sample.p 11 = F64.pulse.value F64.Sample.p 1).
Proof.
  unfold F64.pulse.value at 1 2 3 4 5. rewrite Hq. cbn [bind].
  rewrite Hn. cbn [bind]. rewrite Hf. cbn [bind]. rewrite <- Ht.
  split; [intros ->; reflexivity|].
  split; [intros -> ->; reflexivity|].
  split; [intros -> -> ->; reflexivity|].
  split; [intros -> -> -> ->; reflexivity|].
  split; [intros -> -> -> ->; reflexivity|].
  repeat split; vm_compute; reflexivity.
Qed.

Lemma pulse_value_five_segments_witness :
  F64.pulse.value F64.Sample.p (-1.5) = Ok 0%float
  /\ F64.pulse.value F64.Sample.p 10.5 = Ok 2.5%float
  /\ F64.pulse.value F64.Sample.p 11.5 = Ok 5%float
  /\ F64.pulse.value F64.Sample.p 13.25 = Ok 3.75%float
  /\ F64.pulse.value F64.Sample.p 17 = Ok 0%float.
Proof.
  split; [|split; [|split; [|split]]].
  - apply (proj1 (pulse_value_five_segments F64.Sample.p (-1.5)
                    (-0.15) 0 (-1.5) 0 eq_refl eq_refl eq_refl eq_refl)).
    reflexivity.
  - apply (proj1 (proj2 (pulse_value_five_segments F64.Sample.p 10.5
                    1.05 1 0.5 1 eq_refl eq_refl eq_refl eq_refl)));
      reflexivity.
  - apply (proj1 (proj2 (proj2 (pulse_value_five_segments F64.Sample.p 11.5
                    1.15 1 1.5 1 eq_refl eq_refl eq_refl eq_refl))));
      reflexivity.
  - apply (proj1 (proj2 (proj2 (proj2 (pulse_value_five_segments F64.Sample.p
                    13.25 1.325 1 3.25 1 eq_refl eq_refl eq_refl eq_refl)))));
      reflexivity.
  - apply (proj1 (proj2 (proj2 (proj2 (proj2 (pulse_value_five_segments
                    F64.Sample.p 17 1.7 1 7 1 eq_refl eq_refl eq_refl
                    eq_refl))))));
      reflexivity.
Defined.

(** C2 as stated fails. [int] truncates towards zero, so the time [-9] of
    the example pulse is kept and read as low, while [-9 + 10] is on the
    high plateau. At non-negative times rounding breaks the rest: the
    example pulse has [value(0.1 + 10) <> value(0.1)], and for the pulse
    [(v1=0, v2=5, td=0, tr=0.05, pw=0.05, tf=0, per=0.1)] the time [1.7]
    is wrapped to a negative time, outside [[0, period)], and read as
    low. *)
Lemma pulse_wrap_and_period_fail :
  (F64.pulse.value F64.Sample.p (-9) = Ok 0%float
   /\ F64.pulse.value F64.Sample.p (-9 + 10) = Ok 5%float)
  /\ (F64.pulse.value F64.Sample.p (0.1 + 10) = Ok 0.49999999999999822%float
      /\ F64.pulse.value F64.Sample.p 0.1 = Ok 0.5%float
      /\ (0.49999999999999822 =? 0.5)%float = false)
  /\ (F64.float_int (1.7 / 0.1) = Ok 17%Z
      /\ (1.7 - 0.1 * 17 <? 0)%float = true
      /\ F64.pulse.value F64.Sample.fast 1.7 = Ok 0%float).
Proof. repeat split; vm_compute; reflexivity. Qed.

(** ** Exponential *)

Section exponential.
Context `{F64.PyMath}.

(** C6. The exponential is [v1] before the rise delay; the rise term from
    the rise delay up to the fall delay; and, at or after the fall delay,
    that same rise term plus the fall contribution. The three cases are
    read in this order, as the code tests them. Where a division by a time
    constant or [math.exp] raises, the value raises the same. *)
Theorem exp_value_segments (w : F64.exp.t) (time : float) :
  ((time <? F64.exp.td1 w)%float = true ->
   F64.exp.value w time = Ok (F64.exp.v1 w))
  /\ ((time <? F64.exp.td1 w)%float = false ->
      (time <? F64.exp.td2 w)%float = true ->
      F64.exp.value w time = F64.ExpSpec.rise w time)
  /\ ((time <? F64.exp.td1 w)%float = false ->
      (time <? F64.exp.td2 w)%float = false ->
      F64.exp.value w time
      = let* r := F64.ExpSpec.rise w time in
        let* f := F64.ExpSpec.fall w time in
        Ok (r + f)%float).
Proof.
  unfold F64.exp.value, F64.ExpSpec.rise, F64.ExpSpec.fall.
  split; [intros ->; reflexivity|].
  split; [intros -> ->; reflexivity|].
  intros -> ->.
  destruct (F64.pydiv (-1 * (time - F64.exp.td1 w)) (F64.exp.tau1 w)) as [a|];
    [|reflexivity].
  cbn [bind]. destruct (F64.math_exp a) as [ea|]; [|reflexivity].
  cbn [bind].
  destruct (F64.pydiv (-1 * (time - F64.exp.td2 w)) (F64.exp.tau2 w)) as [b|];
    [|reflexivity].
  cbn [bind]. destruct (F64.math_exp b) as [eb|]; reflexivity.
Qed.

(** Where the divisions and [math.exp] return, the value is the number the
    formulas give. *)
Lemma exp_value_formulas (w : F64.exp.t) (time a ea b eb : float) :
  F64.pydiv (-1 * (time - F64.exp.td1 w)) (F64.exp.tau1 w) = Ok a ->
  F64.math_exp a = Ok ea ->
  F64.pydiv (-1 * (time - F64.exp.td2 w)) (F64.exp.tau2 w) = Ok b ->
  F64.math_exp b = Ok eb ->
  F64.ExpSpec.rise w time
  = Ok (F64.exp.v1 w + (F64.exp.v2 w - F64.exp.v1 w) * (1 - ea))%float
  /\ F64.ExpSpec.fall w time
     = Ok ((F64.exp.v1 w - F64.exp.v2 w) * (1 - eb))%float.
Proof.
  intros Ha Hea Hb Heb. unfold F64.ExpSpec.rise, F64.ExpSpec.fall.
  rewrite Ha, Hb. cbn [bind]. now rewrite Hea, Heb.
Qed.

End exponential.

Section exponential_example.
#[local] Existing Instance F64.Sample.math.

Lemma exp_value_segments_witness :
  F64.exp.value F64.Sample.e (-1) = Ok 0%float
  /\ F64.exp.value F64.Sample.e 1 = F64.ExpSpec.rise F64.Sample.e 1
  /\ F64.exp.value F64.Sample.e 200
     = (let* r := F64.ExpSpec.rise F64.Sample.e 200 in
        let* f := F64.ExpSpec.fall F64.Sample.e 200 in
        Ok (r + f)%float)
  /\ F64.exp.value (F64.exp.__init__ 0 1 0 (-1) 2000 1) 1000
     = Raise OverflowError.
Proof.
  split; [|split; [|split]].
  - apply (proj1 (exp_value_segments F64.Sample.e (-1))). reflexivity.
  - apply (proj1 (proj2 (exp_value_segments F64.Sample.e 1))); reflexivity.
  - apply (proj2 (proj2 (exp_value_segments F64.Sample.e 200))); reflexivity.
  - rewrite (proj1 (proj2 (exp_value_segments
                             (F64.exp.__init__ 0 1 0 (-1) 2000 1) 1000)));
      reflexivity.
Defined.

End exponential_example.

Section examples.
#[local] Existing Instance Sample.lib.

Lemma source_value_precedence_witness :
  VSource.V Sample.vdc None = Ok (Some (5 # 1))
  /\ VSource.V Sample.vdc (Some (2 # 1)) = Ok (Some (5 # 1))
  /\ VSource.V Sample.vpulse None = Ok (Some (5 # 1))
  /\ VSource.V Sample.vpulse (Some (1 # 2))
     = (let* x := pulse.value Sample.p (1 # 2) in Ok (Some x))
  /\ ISource.I Sample.ipulse (Some (1 # 2))
     = (let* x := pulse.value Sample.p (1 # 2) in Ok (Some x))
  /\ ISource.I Sample.ipulse None = Raise TypeError.
Proof.
  pose proof (source_value_precedence Sample.vdc Sample.ipulse None)
    as [[Hdc _] [_ [_ Hi0]]].
  pose proof (source_value_precedence Sample.vdc Sample.ipulse (Some (2 # 1)))
    as [[Hdc2 _] _].
  pose proof (source_value_precedence Sample.vpulse Sample.ipulse None)
    as [[_ [Hv0 _]] _].
  pose proof (source_value_precedence Sample.vpulse Sample.ipulse
                (Some (1 # 2))) as [[_ [_ Hvt]] [_ [_ Hit]]].
  split; [apply Hdc; left; reflexivity|].
  split; [apply Hdc2; left; reflexivity|].
  split; [apply Hv0; [reflexivity | discriminate | reflexivity | reflexivity]|].
  split; [apply (Hvt Sample.p); [reflexivity | reflexivity | left; discriminate]|].
  split; [apply (Hit Sample.p); [reflexivity | reflexivity | left; discriminate]|].
  apply (Hi0 Sample.p); [reflexivity | reflexivity | right; reflexivity].
Defined.

End examples.

(** ** Inductor coupling *)

Section coupling.
Context `{PyLib}.
Variables (part_id L1 L2 : string) (K M : Q).

Lemma InductorCoupling_attributes :
  let c := InductorCoupling.__init__ part_id L1 L2 K M in
  getattr c "part_id" = Ok (PStr part_id)
  /\ getattr c "L1" = Ok (PStr L1)
  /\ getattr c "L2" = Ok (PStr L2)
  /\ getattr c "K" = Ok (PFloat K)
  /\ getattr c "M" = Ok (PFloat M)
  /\ getattr c "value" = Raise (AttributeError "value").
Proof. repeat split. Qed.

(** C8. [get_other_inductor] compares the identifier given with [L1] and
    [L2] without regard to case and returns the other identifier of the
    one it matches; when it matches neither, it raises. With [L1 = "La"]
    and [L2 = "Lb"], ["la"] yields ["Lb"] and ["Lc"] raises. *)
Theorem get_other_inductor_cases (Lselected : string) :
  (upper Lselected = upper L1 ->
   InductorCoupling.get_other_inductor
     (InductorCoupling.__init__ part_id L1 L2 K M) Lselected = Ok (PStr L2))
  /\ (upper Lselected <> upper L1 -> upper Lselected = upper L2 ->
      InductorCoupling.get_other_inductor
        (InductorCoupling.__init__ part_id L1 L2 K M) Lselected
      = Ok (PStr L1))
  /\ (upper Lselected <> upper L1 -> upper Lselected <> upper L2 ->
      InductorCoupling.get_other_inductor
        (InductorCoupling.__init__ part_id L1 L2 K M) Lselected
      = Raise (Exception "Mutual inductors bug."))
  /\ InductorCoupling.get_other_inductor Sample.coupling "la" = Ok (PStr "Lb")
  /\ InductorCoupling.get_other_inductor Sample.coupling "Lc"
     = Raise (Exception "Mutual inductors bug.").
Proof.
  destruct InductorCoupling_attributes as (_ & A1 & A2 & _).
  cbv zeta in A1, A2.
  unfold InductorCoupling.get_other_inductor. rewrite A1, A2. cbn [bind upper_obj].
  split; [|split; [|split; [|split; reflexivity]]].
  - intros E. apply String.eqb_eq in E. now rewrite E.
  - intros N E. apply String.eqb_neq in N. apply String.eqb_eq in E.
    now rewrite N, E.
  - intros N1 N2. apply String.eqb_neq in N1. apply String.eqb_neq in N2.
    now rewrite N1, N2.
Qed.

(** C10. The string form of a constructed inductor coupling raises: it
    reads the attribute [value], which the constructor does not assign.
    Its netlist line is returned for every [nodes_dict] and holds the part
    identifier, the two inductor identifiers and [K]. *)
Theorem InductorCoupling_str_raises_netlist_returns
    (nodes_dict : gmap Z string) :
  InductorCoupling.__str__ (InductorCoupling.__init__ part_id L1 L2 K M)
  = Raise (AttributeError "value")
  /\ InductorCoupling.get_netlist_elem_line
       (InductorCoupling.__init__ part_id L1 L2 K M) nodes_dict
     = Ok (part_id +:+ " " +:+ L1 +:+ " " +:+ L2 +:+ " " +:+ fmt_g K).
Proof. split; reflexivity. Qed.

End coupling.

Lemma get_other_inductor_cases_witness :
  InductorCoupling.get_other_inductor
    (InductorCoupling.__init__ "K1" "La" "Lb" (1 # 2) (3 # 1)) "LA"
  = Ok (PStr "Lb")
  /\ InductorCoupling.get_other_inductor
       (InductorCoupling.__init__ "K1" "La" "Lb" (1 # 2) (3 # 1)) "lB"
     = Ok (PStr "La")
  /\ InductorCoupling.get_other_inductor
       (InductorCoupling.__init__ "K1" "La" "Lb" (1 # 2) (3 # 1)) "M"
     = Raise (Exception "Mutual inductors bug.").
Proof.
  split; [|split].
  - apply (proj1 (get_other_inductor_cases "K1" "La" "Lb" (1 # 2) (3 # 1) "LA")).
    reflexivity.
  - apply (proj1 (proj2
      (get_other_inductor_cases "K1" "La" "Lb" (1 # 2) (3 # 1) "lB")));
      [discriminate | reflexivity].
  - apply (proj1 (proj2 (proj2
      (get_other_inductor_cases "K1" "La" "Lb" (1 # 2) (3 # 1) "M"))));
      discriminate.
Defined.

(** ** Current-controlled voltage source *)

(** C9, as the code has it. Constructing the current-controlled voltage
    source returns: the constructor prints a notice and yields an instance
    that holds its fields. Converting an instance to its string form
    raises the exception that says the source is not implemented. *)
Theorem HVSource_constructs_and_str_raises (part_id : string) (n1 n2 : node)
    (value : Q) (source_id : string) :
  fst (HVSource.__init__ part_id n1 n2 value source_id)
  = ["HVSource not implemented. TODO"]
  /\ exists self : instance,
       snd (HVSource.__init__ part_id n1 n2 value source_id) = Ok self
       /\ getattr self "part_id" = Ok (PStr part_id)
       /\ getattr self "n1" = Ok (PInt n1)
       /\ getattr self "n2" = Ok (PInt n2)
       /\ getattr self "alpha" = Ok (PFloat value)
       /\ getattr self "source_id" = Ok (PStr source_id)
       /\ HVSource.__str__ self
          = Raise (Exception "HVSource not implemented. TODO").
Proof.
  split; [reflexivity|].
  eexists. split; [reflexivity|]. repeat split.
Qed.

Section ccvs_example.
#[local] Existing Instance Sample.lib.

(** C9 as stated fails: the constructor returns an instance, the current
    [i] inherited from [Component] returns zero on it, and its netlist line
    raises for the missing attribute [value], not an exception that says
    the source is unsupported. *)
Lemma HVSource_operations_that_do_not_raise_unsupported :
  exists self : instance,
    snd (HVSource.__init__ "H1" 1 0 (2 # 1) "V1") = Ok self
    /\ HVSource.i self [1%Q] = Ok 0%Q
    /\ HVSource.get_netlist_elem_line self Sample.nodes
       = Raise (AttributeError "value")
    /\ HVSource.g self [1%Q] = Raise (AttributeError "value").
Proof.
  eexists. split; [reflexivity|]. repeat split.
Qed.

End ccvs_example.

(** ** Independent sources: the AC phasor *)

Lemma length_append (a b : string) :
  String.length (a +:+ b) = (String.length a + String.length b)%nat.
Proof. induction a as [|c a IH]; simpl; [reflexivity | now rewrite IH]. Qed.

Lemma append_nonempty (a x : string) :
  (0 < String.length x)%nat -> a +:+ x <> a.
Proof.
  intros Hx E. apply (f_equal String.length) in E.
  rewrite length_append in E. lia.
Qed.

Lemma append_assoc (a b c : string) : (a +:+ b) +:+ c = a +:+ (b +:+ c).
Proof.
  induction a as [|x a IH]; [reflexivity|].
  change (String x ((a +:+ b) +:+ c) = String x (a +:+ (b +:+ c))).
  now f_equal.
Qed.

Lemma append_empty_r (a : string) : a +:+ "" = a.
Proof.
  induction a as [|x a IH]; [reflexivity|].
  change (String x (a +:+ "") = String x a). now f_equal.
Qed.

Section source_ac.
Context `{PyLib} {W : Type} `{TimeFunction W}.

Lemma iac_clause_nonempty (l : string) (m p : Q) :
  l +:+ SourceSpec.iac_clause m p <> l.
Proof.
  apply append_nonempty. unfold SourceSpec.iac_clause.
  rewrite !length_append. simpl. lia.
Qed.

Lemma vac_clause_nonempty (l : string) (m : Q) :
  l +:+ SourceSpec.vac_clause m <> l.
Proof.
  apply append_nonempty. unfold SourceSpec.vac_clause.
  rewrite !length_append. simpl. lia.
Qed.

(** C7, as the code has it. A current or voltage source constructed with
    no AC amplitude, or with a zero one, stores its AC magnitude and phase
    as [None]; constructed with a non-zero amplitude it stores the
    magnitude and the phase of that amplitude. The string form and the
    netlist line of the source constructed without AC amplitude are
    returned without an AC clause, those of the source constructed with a
    non-zero amplitude end with the clause of its magnitude (and, for a
    current source, its phase), and the two differ. *)
Theorem source_ac_storage (pid : string) (a b : node) (dc : option Q)
    (z : Q * Q) (nodes_dict : gmap Z string) :
  (forall ac, ac = None \/ (exists z0, ac = Some z0 /\ truthy z0 = false) ->
     ISource.abs_ac (ISource.__init__ (W := W) pid a b dc ac) = None
     /\ ISource.arg_ac (ISource.__init__ (W := W) pid a b dc ac) = None
     /\ VSource.abs_ac (VSource.__init__ (W := W) pid a b dc ac) = None
     /\ VSource.arg_ac (VSource.__init__ (W := W) pid a b dc ac) = None)
  /\ (truthy z = true ->
      (ISource.abs_ac (ISource.__init__ (W := W) pid a b dc (Some z))
       = Some (np_abs z)
       /\ ISource.arg_ac (ISource.__init__ (W := W) pid a b dc (Some z))
          = Some (np_angle z)
       /\ VSource.abs_ac (VSource.__init__ (W := W) pid a b dc (Some z))
          = Some (np_abs z)
       /\ VSource.arg_ac (VSource.__init__ (W := W) pid a b dc (Some z))
          = Some (np_angle z))
      /\ (ISource.__str__ (ISource.__init__ (W := W) pid a b dc None)
          = Ok (SourceSpec.dc_clause "idc" dc)
          /\ ISource.__str__ (ISource.__init__ (W := W) pid a b dc (Some z))
             = Ok (SourceSpec.dc_clause "idc" dc
                   +:+ SourceSpec.iac_clause (np_abs z) (np_angle z))
          /\ SourceSpec.dc_clause "idc" dc
             +:+ SourceSpec.iac_clause (np_abs z) (np_angle z)
             <> SourceSpec.dc_clause "idc" dc)
      /\ (VSource.__str__ (VSource.__init__ (W := W) pid a b dc None)
          = Ok (SourceSpec.dc_clause "vdc" dc)
          /\ VSource.__str__ (VSource.__init__ (W := W) pid a b dc (Some z))
             = Ok (SourceSpec.dc_clause "vdc" dc
                   +:+ SourceSpec.vac_clause (np_abs z))
          /\ SourceSpec.dc_clause "vdc" dc +:+ SourceSpec.vac_clause (np_abs z)
             <> SourceSpec.dc_clause "vdc" dc)
      /\ (forall e1 e2,
            nodes_dict !! a = Some e1 -> nodes_dict !! b = Some e2 ->
            (ISource.get_netlist_elem_line
               (ISource.__init__ (W := W) pid a b dc None) nodes_dict
             = Ok (SourceSpec.header pid e1 e2 +:+ SourceSpec.dc_clause "idc" dc)
             /\ ISource.get_netlist_elem_line
                  (ISource.__init__ (W := W) pid a b dc (Some z)) nodes_dict
                = Ok ((SourceSpec.header pid e1 e2
                       +:+ SourceSpec.dc_clause "idc" dc)
                      +:+ SourceSpec.iac_clause (np_abs z) (np_angle z))
             /\ (SourceSpec.header pid e1 e2 +:+ SourceSpec.dc_clause "idc" dc)
                +:+ SourceSpec.iac_clause (np_abs z) (np_angle z)
                <> SourceSpec.header pid e1 e2 +:+ SourceSpec.dc_clause "idc" dc)
            /\ (VSource.get_netlist_elem_line
                  (VSource.__init__ (W := W) pid a b dc None) nodes_dict
                = Ok (SourceSpec.header pid e1 e2
                      +:+ SourceSpec.dc_clause "vdc" dc)
                /\ VSource.get_netlist_elem_line
                     (VSource.__init__ (W := W) pid a b dc (Some z)) nodes_dict
                   = Ok ((SourceSpec.header pid e1 e2
                          +:+ SourceSpec.dc_clause "vdc" dc)
                         +:+ SourceSpec.vac_clause (np_abs z))
                /\ (SourceSpec.header pid e1 e2
                    +:+ SourceSpec.dc_clause "vdc" dc)
                   +:+ SourceSpec.vac_clause (np_abs z)
                   <> SourceSpec.header pid e1 e2
                      +:+ SourceSpec.dc_clause "vdc" dc))).
Proof.
  split.
  - intros ac [-> | (z0 & -> & Hz0)].
    + repeat split.
    + unfold ISource.__init__, VSource.__init__. cbn. rewrite Hz0.
      repeat split.
  - intros Hz.
    split.
    { unfold ISource.__init__, VSource.__init__. cbn. rewrite Hz.
      repeat split. }
    split.
    { split; [destruct dc; reflexivity|].
      split; [|apply iac_clause_nonempty].
      unfold ISource.__str__, ISource.__init__. cbn. rewrite Hz.
      destruct dc; cbn; rewrite ?append_assoc; reflexivity. }
    split.
    { split; [destruct dc; reflexivity|].
      split; [|apply vac_clause_nonempty].
      unfold VSource.__str__, VSource.__init__. cbn. rewrite Hz.
      destruct dc; cbn; rewrite ?append_assoc; reflexivity. }
    intros e1 e2 Ha Hb.
    unfold ISource.get_netlist_elem_line, VSource.get_netlist_elem_line,
      ISource.__init__, VSource.__init__, getitem.
    cbn. rewrite Ha, Hb, Hz. cbn.
    fold (SourceSpec.header pid e1 e2).
    split.
    + split; [destruct dc; cbn; rewrite ?append_empty_r; reflexivity|].
      split; [|apply iac_clause_nonempty].
      destruct dc; cbn; rewrite ?append_empty_r, ?append_assoc; reflexivity.
    + split; [destruct dc; cbn; rewrite ?append_empty_r; reflexivity|].
      split; [|apply vac_clause_nonempty].
      destruct dc; cbn; rewrite ?append_empty_r, ?append_assoc; reflexivity.
Qed.

End source_ac.

Section source_ac_example.
#[local] Existing Instance Sample.lib.

Lemma source_ac_storage_witness :
  ISource.abs_ac
    (ISource.__init__ (W := pulse.t) "I1" 1 0 (Some (5 # 1)) (Some (0, 0)%Q))
  = None
  /\ ISource.arg_ac
       (ISource.__init__ (W := pulse.t) "I1" 1 0 (Some (5 # 1))
          (Some (3 # 1, 0)%Q))
     = Some 0%Q
  /\ ISource.get_netlist_elem_line
       (ISource.__init__ (W := pulse.t) "I1" 1 0 (Some (5 # 1))
          (Some (3 # 1, 0)%Q)) Sample.nodes
     = Ok ((SourceSpec.header "I1" "a" "0"
            +:+ SourceSpec.dc_clause "idc" (Some (5 # 1)))
           +:+ SourceSpec.iac_clause (3 # 1) 0).
Proof.
  destruct (source_ac_storage (W := pulse.t) "I1" 1 0 (Some (5 # 1))
              (3 # 1, 0)%Q Sample.nodes) as [Habsent Hstored].
  destruct (Hstored eq_refl) as ((_ & Harg & _) & _ & _ & Hline).
  destruct (Hline "a" "0" eq_refl eq_refl) as ((_ & Hi & _) & _).
  split; [|split; [exact Harg | exact Hi]].
  apply (Habsent (Some (0, 0)%Q)). right. exists (0, 0)%Q. split; reflexivity.
Defined.

(** C7 as stated fails for the zero-magnitude phasor the constructor can be
    given: a source constructed with the amplitude zero is the source
    constructed with none, so no query and no serialization tells them
    apart. *)
Lemma zero_amplitude_is_stored_as_absent :
  ISource.__init__ (W := pulse.t) "I1" 1 0 (Some (5 # 1)) (Some (0, 0)%Q)
  = ISource.__init__ (W := pulse.t) "I1" 1 0 (Some (5 # 1)) None
  /\ VSource.__init__ (W := pulse.t) "V1" 1 0 (Some (5 # 1)) (Some (0, 0)%Q)
     = VSource.__init__ (W := pulse.t) "V1" 1 0 (Some (5 # 1)) None
  /\ ISource.abs_ac
       (ISource.__init__ (W := pulse.t) "I1" 1 0 (Some (5 # 1)) (Some (0, 0)%Q))
     = None
  /\ ISource.get_netlist_elem_line
       (ISource.__init__ (W := pulse.t) "I1" 1 0 (Some (5 # 1)) (Some (0, 0)%Q))
       Sample.nodes
     = ISource.get_netlist_elem_line
         (ISource.__init__ (W := pulse.t) "I1" 1 0 (Some (5 # 1)) None)
         Sample.nodes.
Proof. repeat split. Qed.

End source_ac_example.

(** * Further properties *)

(** ** Pulse: the delay *)

(** X4. The constructor takes a negative delay as zero and keeps any other:
    the pulse built with a negative delay is the pulse built with delay
    zero, and the stored delay is never negative. *)
Theorem pulse_init_clamps_delay (v1 v2 td tr pw tf per : Q) :
  (0 <= pulse.td (pulse.__init__ v1 v2 td tr pw tf per))%Q
  /\ ((td < 0)%Q ->
      pulse.__init__ v1 v2 td tr pw tf per = pulse.__init__ v1 v2 0 tr pw tf per)
  /\ ((0 <= td)%Q -> pulse.td (pulse.__init__ v1 v2 td tr pw tf per) = td).
Proof.
  unfold pulse.__init__, pymax. cbn [pulse.td].
  destruct (Qltb td 0) eqn:E.
  - apply Qltb_lt in E. split; [apply Qle_refl|]. split; [reflexivity|].
    intros Hge. exfalso. apply (Qlt_irrefl td). eapply Qlt_le_trans; eassumption.
  - apply Qltb_ge in E. split; [exact E|]. split; [|reflexivity].
    intros Hlt. exfalso. apply (Qlt_irrefl td). eapply Qlt_le_trans; eassumption.
Qed.

Lemma pulse_init_clamps_delay_witness :
  pulse.__init__ 0 5 (-3 # 1) 1 2 1 10 = pulse.__init__ 0 5 0 1 2 1 10
  /\ pulse.td (pulse.__init__ 0 5 (3 # 1) 1 2 1 10) = (3 # 1)%Q.
Proof.
  split.
  - apply (proj1 (proj2 (pulse_init_clamps_delay 0 5 (-3 # 1) 1 2 1 10))).
    reflexivity.
  - apply (proj2 (proj2 (pulse_init_clamps_delay 0 5 (3 # 1) 1 2 1 10))).
    discriminate.
Defined.

(** ** Exponential: the flat case *)

Section exponential_more.
Context `{PyLib}.


End exponential_more.

Section exponential_examples.
#[local] Existing Instance Sample.lib.


End exponential_examples.

(** ** Independent sources: construction, errors and the netlist line *)

Section sources_more.
Context `{PyLib} {W : Type} `{TimeFunction W}.

(** X7. A source as its constructor leaves it is a DC source: at every time,
    and at no time, it evaluates to the DC value given, whatever the AC
    value. *)
Theorem constructed_source_is_dc (pid : string) (a b : node)
    (dc : option Q) (ac : option (Q * Q)) (time : option Q) :
  VSource.V (VSource.__init__ (W := W) pid a b dc ac) time = Ok dc
  /\ ISource.I (ISource.__init__ (W := W) pid a b dc ac) time = Ok dc.
Proof. split; reflexivity. Qed.

(** X8. The netlist line of a voltage source raises [KeyError] when either
    node is missing from [nodes_dict]; otherwise it is the part
    identifier and the two external node names followed by the string
    form of the source, and raises what the string form raises. *)
Theorem VSource_netlist_line_composes (s : VSource.t W)
    (nodes_dict : gmap Z string) :
  (nodes_dict !! VSource.n1 s = None \/ nodes_dict !! VSource.n2 s = None ->
   VSource.get_netlist_elem_line s nodes_dict = Raise KeyError)
  /\ (forall e1 e2,
        nodes_dict !! VSource.n1 s = Some e1 ->
        nodes_dict !! VSource.n2 s = Some e2 ->
        VSource.get_netlist_elem_line s nodes_dict
        = let* l := VSource.__str__ s in
          Ok (VSource.part_id s +:+ " " +:+ e1 +:+ " " +:+ e2 +:+ " " +:+ l)).
Proof.
  unfold VSource.get_netlist_elem_line, VSource.__str__, getitem. split.
  - intros [-> | ->]; [reflexivity|].
    now destruct (nodes_dict !! VSource.n1 s).
  - intros e1 e2 -> ->. cbn [bind].
    destruct (VSource.dc_value s), (VSource.abs_ac s),
      (VSource.is_timedependent s);
      try destruct (str_time_function (VSource._time_function s));
      cbn; rewrite ?append_assoc; cbn; rewrite ?append_assoc; reflexivity.
Qed.

(** X9. The netlist line of a current source raises [KeyError] when either
    node is missing from [nodes_dict]; otherwise it is the part
    identifier and the two external node names followed by the string
    form of the source, and raises what the string form raises. *)
Theorem ISource_netlist_line_composes (s : ISource.t W)
    (nodes_dict : gmap Z string) :
  (nodes_dict !! ISource.n1 s = None \/ nodes_dict !! ISource.n2 s = None ->
   ISource.get_netlist_elem_line s nodes_dict = Raise KeyError)
  /\ (forall e1 e2,
        nodes_dict !! ISource.n1 s = Some e1 ->
        nodes_dict !! ISource.n2 s = Some e2 ->
        ISource.get_netlist_elem_line s nodes_dict
        = let* l := ISource.__str__ s in
          Ok (ISource.part_id s +:+ " " +:+ e1 +:+ " " +:+ e2 +:+ " " +:+ l)).
Proof.
  unfold ISource.get_netlist_elem_line, ISource.__str__, getitem. split.
  - intros [-> | ->]; [reflexivity|].
    now destruct (nodes_dict !! ISource.n1 s).
  - intros e1 e2 -> ->. cbn [bind].
    destruct (ISource.dc_value s), (ISource.abs_ac s),
      (ISource.is_timedependent s);
      try destruct (str_time_function (ISource._time_function s));
      cbn; rewrite ?append_assoc; cbn; rewrite ?append_assoc; reflexivity.
Qed.

End sources_more.

Section sources_examples.
#[local] Existing Instance Sample.lib.

Lemma VSource_netlist_line_composes_witness :
  VSource.get_netlist_elem_line Sample.vpulse ∅ = Raise KeyError
  /\ VSource.get_netlist_elem_line Sample.vpulse Sample.nodes
     = (let* l := VSource.__str__ Sample.vpulse in
        Ok ("V1" +:+ " " +:+ "a" +:+ " " +:+ "0" +:+ " " +:+ l)).
Proof.
  destruct (VSource_netlist_line_composes Sample.vpulse ∅) as [Hk _].
  destruct (VSource_netlist_line_composes Sample.vpulse Sample.nodes) as [_ Hl].
  split; [apply Hk; left; reflexivity|].
  apply (Hl "a" "0"); reflexivity.
Defined.

Lemma ISource_netlist_line_composes_witness :
  ISource.get_netlist_elem_line Sample.ipulse ∅ = Raise KeyError
  /\ ISource.get_netlist_elem_line Sample.ipulse Sample.nodes
     = (let* l := ISource.__str__ Sample.ipulse in
        Ok ("I1" +:+ " " +:+ "a" +:+ " " +:+ "0" +:+ " " +:+ l)).
Proof.
  destruct (ISource_netlist_line_composes Sample.ipulse ∅) as [Hk _].
  destruct (ISource_netlist_line_composes Sample.ipulse Sample.nodes) as [_ Hl].
  split; [apply Hk; left; reflexivity|].
  apply (Hl "a" "0"); reflexivity.
Defined.

End sources_examples.

Section sources_no_time.
Context `{PyLib} `{PyTrig}.

(** X10. A time dependent source with no DC value cannot be evaluated without
    a time: with a pulse, a sine or an exponential attached, [V] and [I]
    at [None] raise [TypeError]. *)
Theorem source_without_dc_needs_time
    (p : pulse.t) (s : sin.t) (e : exp.t) :
  (forall v : VSource.t pulse.t,
     VSource.is_timedependent v = true -> VSource._time_function v = Some p ->
     VSource.dc_value v = None -> VSource.V v None = Raise TypeError)
  /\ (forall v : VSource.t sin.t,
     VSource.is_timedependent v = true -> VSource._time_function v = Some s ->
     VSource.dc_value v = None -> VSource.V v None = Raise TypeError)
  /\ (forall v : VSource.t exp.t,
     VSource.is_timedependent v = true -> VSource._time_function v = Some e ->
     VSource.dc_value v = None -> VSource.V v None = Raise TypeError)
  /\ (forall c : ISource.t pulse.t,
     ISource.is_timedependent c = true -> ISource._time_function c = Some p ->
     ISource.dc_value c = None -> ISource.I c None = Raise TypeError)
  /\ (forall c : ISource.t sin.t,
     ISource.is_timedependent c = true -> ISource._time_function c = Some s ->
     ISource.dc_value c = None -> ISource.I c None = Raise TypeError)
  /\ (forall c : ISource.t exp.t,
     ISource.is_timedependent c = true -> ISource._time_function c = Some e ->
     ISource.dc_value c = None -> ISource.I c None = Raise TypeError).
Proof.
  repeat split; intros x Ht Hf Hd;
    first [rewrite VSource_V_cases | rewrite ISource_I_cases];
    now rewrite Ht, Hf, Hd.
Qed.

End sources_no_time.

Section sources_no_time_example.
#[local] Existing Instance Sample.lib.
#[local] Existing Instance Example.trig.

Lemma source_without_dc_needs_time_witness :
  ISource.I Sample.ipulse None = Raise TypeError.
Proof.
  destruct (source_without_dc_needs_time Sample.p Example.s Sample.e)
    as (_ & _ & _ & Hi & _).
  apply Hi; reflexivity.
Defined.

End sources_no_time_example.

(** ** Controlled sources and the methods inherited from Component *)

Section controlled.
Context `{PyLib}.

(** X11. The conductance [g] inherited from [Component] reads the attribute
    [value]; no constructor of a coupling or of a controlled source assigns
    it, so on each of their instances [g] raises [AttributeError], while
    the inherited current [i] returns zero. *)
Theorem inherited_conductance_raises (pid l1 l2 sid : string)
    (a b c d : node) (x k m : Q) (v : voltages) :
  (Component.g (InductorCoupling.__init__ pid l1 l2 k m) v
   = Raise (AttributeError "value")
   /\ EVSource.g (EVSource.__init__ pid a b x c d) v
      = Raise (AttributeError "value")
   /\ GISource.g (GISource.__init__ pid a b x c d) v
      = Raise (AttributeError "value")
   /\ FISource.g (FISource.__init__ pid a b x sid) v
      = Raise (AttributeError "value"))
  /\ (Component.i (InductorCoupling.__init__ pid l1 l2 k m) v = Ok 0%Q
      /\ EVSource.i (EVSource.__init__ pid a b x c d) v = Ok 0%Q
      /\ GISource.i (GISource.__init__ pid a b x c d) v = Ok 0%Q
      /\ FISource.i (FISource.__init__ pid a b x sid) v = Ok 0%Q).
Proof. repeat split. Qed.

(** X12. The string form of a voltage-controlled source shows its coefficient,
    whereas that of the current-controlled current source, inherited from
    [Component], raises [AttributeError] for the attribute [value]. *)
Theorem controlled_source_string_forms (pid sid : string)
    (a b c d : node) (x : Q) :
  EVSource.__str__ (EVSource.__init__ pid a b x c d)
  = Ok ("alpha=" +:+ str_float x)
  /\ GISource.__str__ (GISource.__init__ pid a b x c d)
     = Ok ("value=" +:+ str_float x)
  /\ FISource.__str__ (FISource.__init__ pid a b x sid)
     = Raise (AttributeError "value").
Proof. repeat split. Qed.

Lemma getitem_obj_int (nodes_dict : gmap Z string) (n : node) :
  getitem_obj nodes_dict (PInt n)
  = match nodes_dict !! n with Some e => Ok e | None => Raise KeyError end.
Proof. reflexivity. Qed.

(** X13. The netlist line of a voltage-controlled source (voltage or current
    output alike) needs the external names of its four nodes: it raises
    [KeyError] when one is missing and is otherwise the identifier, the
    output nodes, the sensing nodes and the coefficient. *)
Theorem voltage_controlled_netlist_line (pid : string) (a b c d : node)
    (x : Q) (nodes_dict : gmap Z string) :
  (nodes_dict !! a = None \/ nodes_dict !! b = None
   \/ nodes_dict !! c = None \/ nodes_dict !! d = None ->
   EVSource.get_netlist_elem_line (EVSource.__init__ pid a b x c d) nodes_dict
   = Raise KeyError
   /\ GISource.get_netlist_elem_line (GISource.__init__ pid a b x c d)
        nodes_dict = Raise KeyError)
  /\ (forall e1 e2 e3 e4,
        nodes_dict !! a = Some e1 -> nodes_dict !! b = Some e2 ->
        nodes_dict !! c = Some e3 -> nodes_dict !! d = Some e4 ->
        EVSource.get_netlist_elem_line (EVSource.__init__ pid a b x c d)
          nodes_dict
        = Ok (pid +:+ " " +:+ e1 +:+ " " +:+ e2 +:+ " " +:+ e3 +:+ " " +:+ e4
              +:+ " " +:+ fmt_g x)
        /\ GISource.get_netlist_elem_line (GISource.__init__ pid a b x c d)
             nodes_dict
           = Ok (pid +:+ " " +:+ e1 +:+ " " +:+ e2 +:+ " " +:+ e3 +:+ " "
                 +:+ e4 +:+ " " +:+ fmt_g x)).
Proof.
  assert (Hattr :
    forall self : instance,
      self = EVSource.__init__ pid a b x c d ->
      getattr self "part_id" = Ok (PStr pid)
      /\ getattr self "n1" = Ok (PInt a) /\ getattr self "n2" = Ok (PInt b)
      /\ getattr self "sn1" = Ok (PInt c) /\ getattr self "sn2" = Ok (PInt d)
      /\ getattr self "alpha" = Ok (PFloat x)).
  { intros self ->. repeat split. }
  destruct (Hattr _ eq_refl) as (Ap & A1 & A2 & A3 & A4 & Aa).
  assert (EG : GISource.__init__ pid a b x c d = EVSource.__init__ pid a b x c d)
    by reflexivity.
  unfold EVSource.get_netlist_elem_line, GISource.get_netlist_elem_line.
  rewrite EG, Ap, A1, A2, A3, A4, Aa. cbn [bind fmt_g_obj fmt_s].
  rewrite !getitem_obj_int.
  split.
  - intros Hmiss.
    destruct (nodes_dict !! a), (nodes_dict !! b), (nodes_dict !! c),
      (nodes_dict !! d); cbn [bind]; try (split; reflexivity);
      destruct Hmiss as [?|[?|[?|?]]]; discriminate.
  - intros e1 e2 e3 e4 -> -> -> ->. split; reflexivity.
Qed.

(** X14. The netlist line of the current-controlled current source needs the
    external names of its two nodes only: the controlling source is
    written by its identifier. *)
Theorem FISource_netlist_line (pid sid : string) (a b : node) (x : Q)
    (nodes_dict : gmap Z string) :
  (nodes_dict !! a = None \/ nodes_dict !! b = None ->
   FISource.get_netlist_elem_line (FISource.__init__ pid a b x sid) nodes_dict
   = Raise KeyError)
  /\ (forall e1 e2,
        nodes_dict !! a = Some e1 -> nodes_dict !! b = Some e2 ->
        FISource.get_netlist_elem_line (FISource.__init__ pid a b x sid)
          nodes_dict
        = Ok (pid +:+ " " +:+ e1 +:+ " " +:+ e2 +:+ " " +:+ sid +:+ " "
              +:+ fmt_g x)).
Proof.
  assert (Hattr :
    forall self : instance,
      self = FISource.__init__ pid a b x sid ->
      getattr self "part_id" = Ok (PStr pid)
      /\ getattr self "n1" = Ok (PInt a) /\ getattr self "n2" = Ok (PInt b)
      /\ getattr self "source_id" = Ok (PStr sid)
      /\ getattr self "alpha" = Ok (PFloat x)).
  { intros self ->. repeat split. }
  destruct (Hattr _ eq_refl) as (Ap & A1 & A2 & As & Aa).
  unfold FISource.get_netlist_elem_line.
  rewrite Ap, A1, A2, As, Aa. cbn [bind fmt_g_obj fmt_s].
  rewrite !getitem_obj_int.
  split.
  - intros Hmiss.
    destruct (nodes_dict !! a), (nodes_dict !! b); cbn [bind];
      try reflexivity; destruct Hmiss; discriminate.
  - intros e1 e2 -> ->. reflexivity.
Qed.

End controlled.

Section controlled_examples.
#[local] Existing Instance Sample.lib.

Lemma voltage_controlled_netlist_line_witness :
  EVSource.get_netlist_elem_line Example.evs Sample.nodes = Raise KeyError
  /\ EVSource.get_netlist_elem_line Example.evs Example.nodes4
     = Ok ("E1" +:+ " " +:+ "a" +:+ " " +:+ "0" +:+ " " +:+ "b" +:+ " " +:+ "c"
           +:+ " " +:+ fmt_g (5 # 2)).
Proof.
  destruct (voltage_controlled_netlist_line "E1" 1 0 2 3 (5 # 2) Sample.nodes)
    as [Hk _].
  destruct (voltage_controlled_netlist_line "E1" 1 0 2 3 (5 # 2) Example.nodes4)
    as [_ Hl].
  split.
  - apply Hk. right. right. left. reflexivity.
  - apply (Hl "a" "0" "b" "c"); reflexivity.
Defined.

Lemma FISource_netlist_line_witness :
  FISource.get_netlist_elem_line (FISource.__init__ "F1" 1 5 (2 # 1) "V1")
    Sample.nodes = Raise KeyError
  /\ FISource.get_netlist_elem_line (FISource.__init__ "F1" 1 0 (2 # 1) "V1")
       Sample.nodes
     = Ok ("F1" +:+ " " +:+ "a" +:+ " " +:+ "0" +:+ " " +:+ "V1" +:+ " "
           +:+ fmt_g (2 # 1)).
Proof.
  split.
  - apply (proj1 (FISource_netlist_line "F1" "V1" 1 5 (2 # 1) Sample.nodes)).
    right. reflexivity.
  - apply (proj2 (FISource_netlist_line "F1" "V1" 1 0 (2 # 1) Sample.nodes)
             "a" "0"); reflexivity.
Defined.

End controlled_examples.

(** ** Inductor coupling: the other inductor, twice *)

Lemma upper_ascii_idempotent (c : ascii) :
  upper_ascii (upper_ascii c) = upper_ascii c.
Proof. destruct c as [[] [] [] [] [] [] [] []]; reflexivity. Qed.

Lemma upper_idempotent (s : string) : upper (upper s) = upper s.
Proof.
  induction s as [|c s IH]; [reflexivity|].
  cbn [upper]. now rewrite upper_ascii_idempotent, IH.
Qed.

Section coupling_more.
Variables (part_id L1 L2 : string) (K M : Q).

Lemma get_other_inductor_eq (Lselected : string) :
  InductorCoupling.get_other_inductor
    (InductorCoupling.__init__ part_id L1 L2 K M) Lselected
  = if String.eqb (upper Lselected) (upper L1) then Ok (PStr L2)
    else if String.eqb (upper Lselected) (upper L2) then Ok (PStr L1)
    else Raise (Exception "Mutual inductors bug.").
Proof.
  destruct (InductorCoupling_attributes part_id L1 L2 K M) as (_ & A1 & A2 & _).
  cbv zeta in A1, A2.
  unfold InductorCoupling.get_other_inductor. rewrite A1, A2.
  cbn [bind upper_obj].
  destruct (String.eqb (upper Lselected) (upper L1)); [reflexivity|].
  destruct (String.eqb (upper Lselected) (upper L2)); reflexivity.
Qed.

(** X15. The answer of [get_other_inductor] is one of the two identifiers
    stored, and asking for the other inductor of the answer gives back the
    identifier asked first, up to case. *)
Theorem get_other_inductor_twice (Lselected other : string)
    (Hother : InductorCoupling.get_other_inductor
                (InductorCoupling.__init__ part_id L1 L2 K M) Lselected
              = Ok (PStr other)) :
  (other = L1 \/ other = L2)
  /\ exists back,
       InductorCoupling.get_other_inductor
         (InductorCoupling.__init__ part_id L1 L2 K M) other
       = Ok (PStr back)
       /\ upper back = upper Lselected.
Proof.
  rewrite get_other_inductor_eq in Hother. rewrite get_other_inductor_eq.
  destruct (String.eqb (upper Lselected) (upper L1)) eqn:E1.
  - injection Hother as <-. apply String.eqb_eq in E1.
    split; [now right|].
    destruct (String.eqb (upper L2) (upper L1)) eqn:E21.
    + apply String.eqb_eq in E21. exists L2. split; [reflexivity | congruence].
    + rewrite String.eqb_refl. exists L1. split; [reflexivity | congruence].
  - destruct (String.eqb (upper Lselected) (upper L2)) eqn:E2; [|discriminate].
    injection Hother as <-. apply String.eqb_eq in E2.
    split; [now left|].
    rewrite String.eqb_refl. exists L2. split; [reflexivity | congruence].
Qed.

(** X16. Only the letters' case-folded form of the argument matters: any two
    identifiers equal up to case get the same answer. *)
Theorem get_other_inductor_case_insensitive (x y : string)
    (Hxy : upper x = upper y) :
  InductorCoupling.get_other_inductor
    (InductorCoupling.__init__ part_id L1 L2 K M) x
  = InductorCoupling.get_other_inductor
      (InductorCoupling.__init__ part_id L1 L2 K M) y
  /\ InductorCoupling.get_other_inductor
       (InductorCoupling.__init__ part_id L1 L2 K M) (upper x)
     = InductorCoupling.get_other_inductor
         (InductorCoupling.__init__ part_id L1 L2 K M) x.
Proof.
  rewrite !get_other_inductor_eq, upper_idempotent, Hxy. split; reflexivity.
Qed.

End coupling_more.

Lemma get_other_inductor_twice_witness :
  ("Lb" = "La" \/ "Lb" = "Lb")
  /\ exists back,
       InductorCoupling.get_other_inductor Sample.coupling "Lb"
       = Ok (PStr back)
       /\ upper back = upper "lA".
Proof.
  apply (get_other_inductor_twice "K1" "La" "Lb" (1 # 2) (3 # 1) "lA" "Lb").
  reflexivity.
Defined.

Lemma get_other_inductor_case_insensitive_witness :
  InductorCoupling.get_other_inductor Sample.coupling "lA"
  = InductorCoupling.get_other_inductor Sample.coupling "La"
  /\ InductorCoupling.get_other_inductor Sample.coupling (upper "lA")
     = InductorCoupling.get_other_inductor Sample.coupling "lA".
Proof.
  apply (get_other_inductor_case_insensitive "K1" "La" "Lb" (1 # 2) (3 # 1)
           "lA" "La").
  reflexivity.
Defined.

(** ** Resistor: writes in sequence *)

(** X19. Of two writes in sequence the last one decides: after a write to [g]
    and then a write of a non-zero [y] to [value], the value is [y] and
    the conductance [1/y]; and in the other order the conductance is [y]
    and the value [1/y]. The first write may even have raised. *)
Theorem Resistor_last_write_decides (r : Resistor.t) (x y : Q)
    (Hy : ~ (y == 0)%Q) :
  (exists r', Resistor.set_value (fst (Resistor.set_g r x)) y = (r', Ok tt)
     /\ Resistor.value r' = y /\ Resistor.g r' = (1 / y)%Q)
  /\ (exists r', Resistor.set_g (fst (Resistor.set_value r x)) y = (r', Ok tt)
     /\ Resistor.g r' = y /\ Resistor.value r' = (1 / y)%Q).
Proof.
  split.
  - unfold Resistor.set_value. rewrite (pydiv_nonzero _ _ Hy).
    eexists. split; [reflexivity|]. split; reflexivity.
  - unfold Resistor.set_g at 1. rewrite (pydiv_nonzero _ _ Hy).
    eexists. split; [reflexivity|]. split; reflexivity.
Qed.

Lemma Resistor_last_write_decides_witness :
  (exists r', Resistor.set_value (fst (Resistor.set_g Sample.r 0)) (2 # 1)
              = (r', Ok tt)
     /\ Resistor.value r' = (2 # 1)%Q /\ Resistor.g r' = (1 / (2 # 1))%Q)
  /\ (exists r', Resistor.set_g (fst (Resistor.set_value Sample.r 0)) (2 # 1)
                 = (r', Ok tt)
     /\ Resistor.g r' = (2 # 1)%Q /\ Resistor.value r' = (1 / (2 # 1))%Q).
Proof.
  apply (Resistor_last_write_decides Sample.r 0 (2 # 1)). discriminate.
Defined.

(** ** Sine *)

Section sine.
Context `{PyLib} `{PyTrig}.


End sine.

Section sine_examples.
#[local] Existing Instance Sample.lib.
#[local] Existing Instance Example.trig.


End sine_examples.

(** ** Component *)

Section component.
Context `{PyLib}.

(** X22. On an instance built by [Component.__init__] with nodes [a] and [b]
    and a float value, the methods the subclasses inherit work: [g] is
    the inverse of the value and raises [ZeroDivisionError] at zero, the
    string form is the value, and the netlist line is the identifier, the
    external node names and the value, or [KeyError] for a node that is
    missing. With the default value [None], [g] raises [TypeError]. *)
Theorem Component_methods_after_init (pid : string) (a b : node) (x : Q)
    (nl sy : bool) (v : voltages) (nodes_dict : gmap Z string) :
  Component.g (Component.__init__ (PStr pid) (PInt a) (PInt b) nl sy (PFloat x)) v
  = pydiv 1 x
  /\ Component.g (Component.__init__ (PStr pid) (PInt a) (PInt b) nl sy PNone) v
     = Raise TypeError
  /\ Component.__str__
       (Component.__init__ (PStr pid) (PInt a) (PInt b) nl sy (PFloat x))
     = Ok (str_float x)
  /\ (nodes_dict !! a = None \/ nodes_dict !! b = None ->
      Component.get_netlist_elem_line
        (Component.__init__ (PStr pid) (PInt a) (PInt b) nl sy (PFloat x))
        nodes_dict = Raise KeyError)
  /\ (forall e1 e2,
        nodes_dict !! a = Some e1 -> nodes_dict !! b = Some e2 ->
        Component.get_netlist_elem_line
          (Component.__init__ (PStr pid) (PInt a) (PInt b) nl sy (PFloat x))
          nodes_dict
        = Ok (pid +:+ " " +:+ e1 +:+ " " +:+ e2 +:+ " " +:+ fmt_g x)).
Proof.
  assert (Hattr :
    forall (val : pyobj) (self : instance),
      self = Component.__init__ (PStr pid) (PInt a) (PInt b) nl sy val ->
      getattr self "part_id" = Ok (PStr pid)
      /\ getattr self "n1" = Ok (PInt a) /\ getattr self "n2" = Ok (PInt b)
      /\ getattr self "value" = Ok val).
  { intros val self ->. repeat split. }
  destruct (Hattr (PFloat x) _ eq_refl) as (Ap & A1 & A2 & Av).
  destruct (Hattr PNone _ eq_refl) as (_ & _ & _ & An).
  unfold Component.g, Component.__str__, Component.get_netlist_elem_line.
  rewrite Ap, A1, A2, Av, An. cbn [bind inverse_obj fmt_g_obj fmt_s].
  rewrite !getitem_obj_int.
  split; [reflexivity|]. split; [reflexivity|]. split; [reflexivity|]. split.
  - intros Hmiss.
    destruct (nodes_dict !! a), (nodes_dict !! b); cbn [bind];
      try reflexivity; destruct Hmiss; discriminate.
  - intros e1 e2 -> ->. reflexivity.
Qed.

End component.

Section component_example.
#[local] Existing Instance Sample.lib.

Lemma Component_methods_after_init_witness :
  Component.get_netlist_elem_line
    (Component.__init__ (PStr "X1") (PInt 1) (PInt 7) false true (PFloat (2 # 1)))
    Sample.nodes = Raise KeyError
  /\ Component.get_netlist_elem_line
       (Component.__init__ (PStr "X1") (PInt 1) (PInt 0) false true
          (PFloat (2 # 1)))
       Sample.nodes
     = Ok ("X1" +:+ " " +:+ "a" +:+ " " +:+ "0" +:+ " " +:+ fmt_g (2 # 1)).
Proof.
  split.
  - apply (proj1 (proj2 (proj2 (proj2
      (Component_methods_after_init "X1" 1 7 (2 # 1) false true []
         Sample.nodes))))).
    right. reflexivity.
  - apply (proj2 (proj2 (proj2 (proj2
      (Component_methods_after_init "X1" 1 0 (2 # 1) false true []
         Sample.nodes)))) "a" "0"); reflexivity.
Defined.

End component_example.
